(** * vw_audit_pp: the Vowpal Wabbit audit pretty-printer

    A shallow embedding of [DataScience/vw_audit_pp.py] and the properties of
    its parser ([parse_audit_command]), its command runner
    ([run_vw_audit_command]) and its entry point ([pprint_vw_audit]).

    Python values are modelled as follows.
    - A [str] is a list of Unicode code points ([N]).
    - A list is a [list]; indexing out of range raises [IndexError].
    - A dict literal is an association list in insertion order.
    - A pandas DataFrame is an index (names and one label tuple per row), the
      column names and the row-major cell values.
    - Exceptions and the observable effects (printing, running the external
      command, writing the TSV file) are carried by a small trace-and-error
      monad [M]. *)

From Stdlib Require Import String Ascii.
From Stdlib.Strings Require Import Byte.
From Stdlib Require Import List NArith ZArith Bool Arith Lia.
Import ListNotations.

Set Implicit Arguments.

(** ** Python strings *)

Module Py.

Definition char := N.
Definition str := list char.

(** A string literal of the source, as code points. *)
Definition lit (s : string) : str := map N_of_ascii (list_ascii_of_string s).

Definition tab : char := 9%N.
Definition colon : char := 58%N.

Fixpoint eqb_list (A : Type) (eqb : A -> A -> bool) (l1 l2 : list A) : bool :=
  match l1, l2 with
  | [], [] => true
  | x :: l1', y :: l2' => eqb x y && eqb_list eqb l1' l2'
  | _, _ => false
  end.

Definition str_eqb : str -> str -> bool := eqb_list N.eqb.

(** Membership test [x in l]. *)
Definition mem (A : Type) (eqb : A -> A -> bool) (x : A) (l : list A) : bool :=
  existsb (eqb x) l.

(** The line boundaries of [str.splitlines]: LF, VT, FF, CR, FS, GS, RS,
    NEL, LINE SEPARATOR and PARAGRAPH SEPARATOR. *)
Definition is_linebreak (c : char) : bool :=
  mem N.eqb c [10; 11; 12; 13; 28; 29; 30; 133; 8232; 8233]%N.

(** The characters removed by [str.strip()] without argument. *)
Definition is_space (c : char) : bool :=
  ((9 <=? c) && (c <=? 13) || (28 <=? c) && (c <=? 32)
   || (8192 <=? c) && (c <=? 8202)
   || mem N.eqb c [133; 160; 5760; 8232; 8233; 8239; 8287; 12288])%N.

(** [str.splitlines()]: [cur] is the line being read.  CR LF is one
    boundary, and no empty line follows a final boundary. *)
Fixpoint splitlines_from (cur : str) (s : str) : list str :=
  match s with
  | [] => match cur with [] => [] | _ :: _ => [cur] end
  | c :: rest =>
      if is_linebreak c then
        cur :: match rest with
               | c' :: rest' =>
                   if (c =? 13)%N && (c' =? 10)%N
                   then splitlines_from [] rest'
                   else splitlines_from [] rest
               | [] => splitlines_from [] rest
               end
      else splitlines_from (cur ++ [c]) rest
  end.

Definition splitlines (s : str) : list str := splitlines_from [] s.

Fixpoint lstrip (s : str) : str :=
  match s with
  | [] => []
  | c :: rest => if is_space c then lstrip rest else s
  end.

Definition rstrip (s : str) : str := rev (lstrip (rev s)).

Definition strip (s : str) : str := rstrip (lstrip s).

(** [s.split(sep)] for a separator of one character: every occurrence of
    [sep] ends a part, so the result is never empty. *)
Fixpoint split_from (sep : char) (cur : str) (s : str) : list str :=
  match s with
  | [] => [cur]
  | c :: rest =>
      if (c =? sep)%N then cur :: split_from sep [] rest
      else split_from sep (cur ++ [c]) rest
  end.

Definition split (sep : char) (s : str) : list str := split_from sep [] s.

End Py.

Import Py.

(** ** pandas *)

Module Pandas.

(** A cell holds a string, an integer label, or NaN (a missing value). *)
Inductive cell :=
| NaN
| Str (s : str)
| Int (n : nat).

Definition cell_eqb (a b : cell) : bool :=
  match a, b with
  | NaN, NaN => true
  | Str s, Str t => str_eqb s t
  | Int n, Int m => Nat.eqb n m
  | _, _ => false
  end.

(** A row label: one cell per index level. *)
Definition label := list cell.

Definition label_eqb : label -> label -> bool := eqb_list cell_eqb.

Record Index := mkIndex {
  names : list (option str);
  labels : list label }.

Definition RangeIndex (stop : nat) : Index :=
  {| names := [None]; labels := map (fun i => [Int i]) (seq 0 stop) |}.

Record DataFrame := mkDataFrame {
  index : Index;
  columns : list str;
  data : list (list cell) }.

(** The rows of a frame: label and values. *)
Definition rows (df : DataFrame) : list (label * list cell) :=
  combine (labels (index df)) (data df).

Definition dict := list (str * str).

Fixpoint dict_get (d : dict) (k : str) : option str :=
  match d with
  | [] => None
  | (k', v) :: d' => if str_eqb k' k then Some v else dict_get d' k
  end.

(** The elements of [l] in order of first occurrence. *)
Fixpoint unique_from (A : Type) (eqb : A -> A -> bool) (seen l : list A)
  : list A :=
  match l with
  | [] => []
  | x :: l' =>
      if mem eqb x seen then unique_from eqb seen l'
      else x :: unique_from eqb (x :: seen) l'
  end.

(** [pd.DataFrame(records)] for a list of dicts: the columns are the keys
    in order of first appearance (none for the empty list), a key that a
    record lacks gives NaN, and the index is the default RangeIndex. *)
Definition from_records (records : list dict) : DataFrame :=
  let cols := unique_from str_eqb [] (flat_map (map fst) records) in
  {| index := RangeIndex (length records);
     columns := cols;
     data := map (fun d => map (fun c => match dict_get d c with
                                         | Some v => Str v
                                         | None => NaN
                                         end) cols) records |}.

(** The value of column [k] in a row laid out along [cols]. *)
Fixpoint cell_at (cols : list str) (row : list cell) (k : str) : cell :=
  match cols, row with
  | c :: cols', v :: row' => if str_eqb c k then v else cell_at cols' row' k
  | _, _ => NaN
  end.

(** The values of a row without the columns [keys]. *)
Fixpoint drop_cols (keys cols : list str) (row : list cell) : list cell :=
  match cols, row with
  | c :: cols', v :: row' =>
      if mem str_eqb c keys then drop_cols keys cols' row'
      else v :: drop_cols keys cols' row'
  | _, _ => []
  end.

End Pandas.

Import Pandas.

(** ** Exceptions and effects *)

Inductive exn :=
| IndexError
| KeyError (missing : list str)
| ValueError
| OSError
| CalledProcessError (returncode : Z)
| UnicodeDecodeError.

Inductive event :=
| print_command (cmd : str)
| print_output (out : str)
| print_line (line_number : nat) (line : str)
| print_num_coefficients (n : nat)
| print_coefficients (coeff_term : list str)
| run_process (cmd : str)
| write_tsv (path : str) (df : DataFrame).

(** A computation emits events and then returns or raises. *)
Definition M (A : Type) : Type := list event * (exn + A).

Definition ret (A : Type) (x : A) : M A := ([], inr x).

Definition raise (A : Type) (e : exn) : M A := ([], inl e).

Definition emit (e : event) : M unit := ([e], inr tt).

Definition bind (A B : Type) (c : M A) (k : A -> M B) : M B :=
  match snd c with
  | inl e => (fst c, inl e)
  | inr x => (fst c ++ fst (k x), snd (k x))
  end.

Definition lift (A : Type) (r : exn + A) : M A := ([], r).

Definition when (b : bool) (c : M unit) : M unit := if b then c else ret tt.

Declare Scope py_scope.
Delimit Scope py_scope with py.
Notation "x <- c ;; k" := (bind c (fun x => k))
  (at level 61, c at next level, right associativity) : py_scope.
Notation "c ;; k" := (bind c (fun _ => k))
  (at level 61, right associativity) : py_scope.
Open Scope py_scope.

Definition trace (A : Type) (c : M A) : list event := fst c.
Definition outcome (A : Type) (c : M A) : exn + A := snd c.

(** [l[i]] for a non-negative literal [i]. *)
Definition getitem (A : Type) (l : list A) (i : nat) : M A :=
  match nth_error l i with
  | Some x => ret x
  | None => raise A IndexError
  end.

(** ** pandas operations that may raise *)

(** [df.set_index(keys, inplace=True)]: the key columns become the levels
    of the index and leave the columns; a key that is not a column raises
    KeyError with the missing keys. *)
Definition set_index (keys : list str) (df : DataFrame) : exn + DataFrame :=
  match filter (fun k => negb (mem str_eqb k (columns df))) keys with
  | [] =>
      inr {| index := {| names := map Some keys;
                         labels := map (fun row =>
                                     map (cell_at (columns df) row) keys)
                                     (data df) |};
             columns := filter (fun c => negb (mem str_eqb c keys))
                          (columns df);
             data := map (drop_cols keys (columns df)) (data df) |}
  | missing => inl (KeyError missing)
  end.

(** [index.duplicated(keep='first')]: a label is marked when an equal
    label precedes it. *)
Fixpoint duplicated_from (seen l : list label) : list bool :=
  match l with
  | [] => []
  | x :: l' => mem label_eqb x seen :: duplicated_from (x :: seen) l'
  end.

Definition duplicated (idx : Index) : list bool :=
  duplicated_from [] (labels idx).

(** The rows of [l] whose mask bit is set. *)
Fixpoint select (A : Type) (mask : list bool) (l : list A) : list A :=
  match mask, l with
  | b :: mask', x :: l' => if b then x :: select mask' l' else select mask' l'
  | _, _ => []
  end.

(** [df[mask]] for a boolean mask; a mask of another length raises. *)
Definition getitem_mask (df : DataFrame) (mask : list bool)
  : exn + DataFrame :=
  if Nat.eqb (length mask) (length (data df)) then
    inr {| index := {| names := names (index df);
                       labels := select mask (labels (index df)) |};
           columns := columns df;
           data := select mask (data df) |}
  else inl ValueError.

(** ** The program *)

(** The truth value of an optional string: [None] and [''] are false. *)
Definition truth (x : option str) : bool :=
  match x with
  | Some (_ :: _) => true
  | Some [] | None => false
  end.

(** What ['{x}'.format(x=...)] inserts for an optional string. *)
Definition format (x : option str) : str :=
  match x with
  | Some s => s
  | None => lit "None"
  end.

Definition Namespace_Feature : str := lit "Namespace^Feature".
Definition HashValue : str := lit "HashValue".
Definition FeatureValue : str := lit "FeatureValue".
Definition WeightValue : str := lit "WeightValue".

Section Program.

(** The environment: what [subprocess.check_output] does with a command,
    what [bytes.decode()] gives, and which paths can be opened for
    writing. *)
Variable check_output : str -> exn + list byte.
Variable decode : list byte -> exn + str.
Variable writable : str -> bool.

(** [df.to_csv(path, sep='\t', index=True)], recorded as one event. *)
Definition to_csv (df : DataFrame) (path : str) : M unit :=
  if writable path then emit (write_tsv path df) else raise unit OSError.

Definition run_vw_audit_command (model_file log_file : str)
  (pred_file : option str) (verbose : bool) (vw_base_cmd : str) : M str :=
  let vw_base_cmd :=
    if truth pred_file then vw_base_cmd ++ lit " -p " ++ format pred_file
    else vw_base_cmd in
  let vw_audit_cmd :=
    vw_base_cmd ++ lit " -i " ++ model_file ++ lit " --dsjson " ++ log_file
      ++ lit " --audit" in
  when verbose (emit (print_command vw_audit_cmd)) ;;
  emit (run_process vw_audit_cmd) ;;
  captured <- lift (check_output vw_audit_cmd) ;;
  vw_cmd_output <- lift (decode captured) ;;
  when verbose (emit (print_output vw_cmd_output)) ;;
  ret vw_cmd_output.

(** The inner loop [for coeff in coefficients]. *)
Fixpoint for_coeff (verbose : bool) (coefficients : list str)
  (coeff_list : list dict) : M (list dict) :=
  match coefficients with
  | [] => ret coeff_list
  | coeff :: rest =>
      let coeff_term := split colon coeff in
      when verbose (emit (print_coefficients coeff_term)) ;;
      t0 <- getitem coeff_term 0 ;;
      t1 <- getitem coeff_term 1 ;;
      t2 <- getitem coeff_term 2 ;;
      t3 <- getitem coeff_term 3 ;;
      for_coeff verbose rest
        (coeff_list ++ [[(Namespace_Feature, t0); (HashValue, t1);
                         (FeatureValue, t2); (WeightValue, t3)]])
  end.

(** The outer loop [for line in ...], with its counter. *)
Fixpoint for_line (verbose : bool) (lines : list str) (line_number : nat)
  (coeff_list : list dict) : M (list dict) :=
  match lines with
  | [] => ret coeff_list
  | line :: rest =>
      let line_number := S line_number in
      when verbose (emit (print_line line_number line)) ;;
      let coefficients := split tab line in
      when verbose (emit (print_num_coefficients (length coefficients))) ;;
      if length coefficients <=? 1 then
        for_line verbose rest line_number coeff_list
      else
        coeff_list <- for_coeff verbose coefficients coeff_list ;;
        for_line verbose rest line_number coeff_list
  end.

Definition parse_audit_command (vw_cmd_output audit_output_file : str)
  (verbose : bool) : M DataFrame :=
  coeff_list <- for_line verbose (map strip (splitlines vw_cmd_output)) 0 [] ;;
  let df_coeff := from_records coeff_list in
  df_coeff <- lift (set_index [Namespace_Feature; HashValue; FeatureValue]
                      df_coeff) ;;
  df_coeff <- lift (getitem_mask df_coeff
                      (map negb (duplicated (index df_coeff)))) ;;
  to_csv df_coeff audit_output_file ;;
  ret df_coeff.

Definition pprint_vw_audit (model_file log_file audit_output_file : str)
  (pred_file : option str) (verbose : bool) (vw_base_cmd : str) : M unit :=
  vw_cmd_output <- run_vw_audit_command model_file log_file pred_file verbose
                     vw_base_cmd ;;
  parse_audit_command vw_cmd_output audit_output_file false ;;
  ret tt.

End Program.

(** ** Vocabulary of the properties *)

(** The lines the parser iterates over, trimmed. *)
Definition normalized_lines (blob : str) : list str :=
  map strip (splitlines blob).

(** The tokens of the lines that have more than one of them, lines from
    top to bottom and tokens from left to right. *)
Definition fragments_of (lines : list str) : list str :=
  flat_map (fun line =>
              if length (split tab line) <=? 1 then [] else split tab line)
    lines.

Definition fragments (blob : str) : list str :=
  fragments_of (normalized_lines blob).

(** The composite key announced by a token: its first three parts. *)
Definition token_key (tok : str) : label :=
  map Str (firstn 3 (split colon tok)).

(** The position of the first occurrence of [k] in [ks], or the length of
    [ks] when there is none. *)
Fixpoint first_index (k : label) (ks : list label) : nat :=
  match ks with
  | [] => 0
  | k' :: ks' => if label_eqb k' k then 0 else S (first_index k ks')
  end.

Definition is_print (e : event) : bool :=
  match e with
  | run_process _ | write_tsv _ _ => false
  | _ => true
  end.

(** The diagnostics that only the parser prints. *)
Definition is_parser_print (e : event) : bool :=
  match e with
  | print_line _ _ | print_num_coefficients _ | print_coefficients _ => true
  | _ => false
  end.

Definition is_run_process (e : event) : bool :=
  match e with
  | run_process _ => true
  | _ => false
  end.

(** The four fields read from one token. *)
Record FeatureRecord := mkFeatureRecord {
  namespaceFeature : str;
  hashValue : str;
  featureValue : str;
  weightValue : str }.

Definition record_of (tok : str) : option FeatureRecord :=
  match split colon tok with
  | a :: b :: c :: d :: _ => Some (mkFeatureRecord a b c d)
  | _ => None
  end.

Fixpoint records_of (toks : list str) : option (list FeatureRecord) :=
  match toks with
  | [] => Some []
  | tok :: toks' =>
      match record_of tok with
      | None => None
      | Some r =>
          match records_of toks' with
          | None => None
          | Some rs => Some (r :: rs)
          end
      end
  end.

(** The dict literal the parser appends for a record. *)
Definition dict_of (r : FeatureRecord) : dict :=
  [(Namespace_Feature, namespaceFeature r); (HashValue, hashValue r);
   (FeatureValue, featureValue r); (WeightValue, weightValue r)].

Definition key (r : FeatureRecord) : label :=
  [Str (namespaceFeature r); Str (hashValue r); Str (featureValue r)].

Definition row_of (r : FeatureRecord) : label * list cell :=
  (key r, [Str (weightValue r)]).

(** The records whose key has not been seen before. *)
Fixpoint first_seen_from (seen : list label) (rs : list FeatureRecord)
  : list FeatureRecord :=
  match rs with
  | [] => []
  | r :: rs' =>
      if mem label_eqb (key r) seen then first_seen_from (key r :: seen) rs'
      else r :: first_seen_from (key r :: seen) rs'
  end.

(** The table that holds the records [rs], one row each. *)
Definition table_of (rs : list FeatureRecord) : DataFrame :=
  {| index := {| names := [Some Namespace_Feature; Some HashValue;
                           Some FeatureValue];
                 labels := map key rs |};
     columns := [WeightValue];
     data := map (fun r => [Str (weightValue r)]) rs |}.

Definition key_columns : list str :=
  [Namespace_Feature; HashValue; FeatureValue].

(** ** Sample inputs *)

Definition audit_path : str := lit "audit.tsv".

(** Every path can be written. *)
Definition any_path (path : str) : bool := true.

(** A line of the tool's header: no tab. *)
Definition header_blob : str := lit "Num weight bits = 18".

(** Two tokens with one key and two weights, on one line. *)
Definition duplicate_blob : str :=
  lit "a:1:1:0.1" ++ [tab] ++ lit "a:1:1:0.9".

(** Two lines; the key of the first token comes back on the second. *)
Definition two_line_blob : str :=
  lit "b:2:2:0.5" ++ [tab] ++ lit "a:1:1:0.1" ++ [10%N]
    ++ lit "c:3:3:1" ++ [tab] ++ lit "b:2:2:0.7".

Definition single_token_blob : str := lit "ns^feat:abcd1234:1.0:0.532".

(** A token with two parts next to a token with four. *)
Definition short_token_blob : str :=
  lit "a:b" ++ [tab] ++ lit "c:d:e:f".

(** A token with five parts next to a token with four. *)
Definition long_token_blob : str :=
  lit "a:b:c:d:e" ++ [tab] ++ lit "c:d:e:f".

(** ** The script's entry *)

Module Main.

(** The parsed command line, as [argparse] hands it over. *)
Record Namespace := mkNamespace {
  model : str;
  input : str;
  output : str;
  verbose : bool;
  pred_file : option str;
  base_command : str }.

(** What the script prints itself, around the events of the pipeline. *)
Inductive main_event :=
| print_args (args : Namespace)
| pipeline (e : event)
| print_see_file (file : str).

End Main.

Section Script.

Variable check_output : str -> exn + list byte.
Variable decode : list byte -> exn + str.
Variable writable : str -> bool.

(** The body under [if __name__ == "__main__"], after [parse_args]: the
    arguments are printed, the pipeline runs, and the closing message is
    printed when the pipeline has returned. *)
Definition main (args : Main.Namespace)
  : list Main.main_event * (exn + unit) :=
  let run := pprint_vw_audit check_output decode writable
               (Main.model args) (Main.input args) (Main.output args)
               (Main.pred_file args) (Main.verbose args)
               (Main.base_command args) in
  (Main.print_args args :: map Main.pipeline (trace run)
     ++ match outcome run with
        | inr _ => [Main.print_see_file (Main.output args)]
        | inl _ => []
        end,
   outcome run).

End Script.

(** ** More vocabulary *)

(** [sep.join(parts)] for a separator of one character. *)
Fixpoint join (sep : char) (parts : list str) : str :=
  match parts with
  | [] => []
  | [part] => part
  | part :: parts' => part ++ sep :: join sep parts'
  end.

Definition is_write_tsv (e : event) : bool :=
  match e with
  | write_tsv _ _ => true
  | _ => false
  end.

Definition is_print_line (e : event) : bool :=
  match e with
  | print_line _ _ => true
  | _ => false
  end.

(** The characters of a cell; none for NaN and for an integer label. *)
Definition cell_chars (c : cell) : str :=
  match c with
  | Str s => s
  | NaN | Int _ => []
  end.

(** More sample inputs. *)

Definition good_output : list byte := [x61; x3a; x31; x3a; x31; x3a; x32;
                                       x09; x62; x3a; x31; x3a; x31; x3a; x33].

(** A machine on which the command prints [good_output]. *)
Definition good_check_output (cmd : str) : exn + list byte :=
  inr good_output.

(** A machine on which the command fails. *)
Definition failing_check_output (cmd : str) : exn + list byte :=
  inl (CalledProcessError 1).

(** Decoding of ASCII output. *)
Definition ascii_decode (captured : list byte) : exn + str :=
  inr (map (fun b => N_of_ascii (ascii_of_byte b)) captured).

(** The table read from [duplicate_blob]. *)
Definition duplicate_table : DataFrame :=
  table_of [mkFeatureRecord (lit "a") (lit "1") (lit "1") (lit "0.1")].

(** Two tabs in a row between two tokens. *)
Definition double_tab_blob : str :=
  lit "a:1:1:1" ++ tab :: tab :: lit "b:1:1:1".

Definition sample_args : Main.Namespace :=
  {| Main.model := lit "m.vw"; Main.input := lit "log.json";
     Main.output := audit_path; Main.verbose := false;
     Main.pred_file := None; Main.base_command := lit "vw -t -l 0.001" |}.

(** * Properties *)

(** ** The string operations on small inputs *)

Example splitlines_ex :
  splitlines (lit "a" ++ [13; 10]%N ++ lit "b" ++ [10; 10]%N ++ lit "c"
                ++ [10]%N)
  = [lit "a"; lit "b"; []; lit "c"].
Proof. reflexivity. Qed.

Example splitlines_empty_ex : splitlines [] = [].
Proof. reflexivity. Qed.

Example strip_ex : strip (tab :: lit " a b " ++ [tab]) = lit "a b".
Proof. reflexivity. Qed.

Example split_ex : split colon (lit "a::b:") = [lit "a"; []; lit "b"; []].
Proof. reflexivity. Qed.

Example split_empty_ex : split colon [] = [[]].
Proof. reflexivity. Qed.

Example fragments_ex :
  fragments two_line_blob
  = [lit "b:2:2:0.5"; lit "a:1:1:0.1"; lit "c:3:3:1"; lit "b:2:2:0.7"].
Proof. reflexivity. Qed.

(** A trailing tab is trimmed before the line is split. *)
Example trailing_tab_ex : fragments (lit "a:b" ++ [tab]) = [].
Proof. reflexivity. Qed.


(** ** Equality tests *)

Lemma eqb_list_eq (A : Type) (eqb : A -> A -> bool) :
  (forall x y, eqb x y = true <-> x = y) ->
  forall l1 l2, eqb_list eqb l1 l2 = true <-> l1 = l2.
Proof.
  intros Heqb l1.
  induction l1 as [|x l1 IH]; intros [|y l2]; simpl;
    try (split; [discriminate | congruence]); try tauto.
  rewrite andb_true_iff, Heqb, IH.
  split; [intros [-> ->]; reflexivity | intros E; injection E; auto].
Qed.

Lemma str_eqb_eq (s t : str) : str_eqb s t = true <-> s = t.
Proof. apply eqb_list_eq, N.eqb_eq. Qed.

Lemma cell_eqb_eq (a b : cell) : cell_eqb a b = true <-> a = b.
Proof.
  destruct a as [|s|n], b as [|t|m]; simpl;
    try (split; [discriminate | congruence]); try tauto.
  - rewrite str_eqb_eq. split; congruence.
  - rewrite Nat.eqb_eq. split; congruence.
Qed.

Lemma label_eqb_eq (k1 k2 : label) : label_eqb k1 k2 = true <-> k1 = k2.
Proof. apply eqb_list_eq, cell_eqb_eq. Qed.

Lemma label_eqb_refl (k : label) : label_eqb k k = true.
Proof. apply label_eqb_eq; reflexivity. Qed.

Lemma label_eqb_neq (k1 k2 : label) : label_eqb k1 k2 = false <-> k1 <> k2.
Proof.
  rewrite <- label_eqb_eq. destruct (label_eqb k1 k2); split; congruence.
Qed.

Lemma mem_label_In (k : label) (ks : list label) :
  mem label_eqb k ks = true <-> In k ks.
Proof.
  unfold mem. rewrite existsb_exists. split.
  - intros [k' [Hin E]]. apply label_eqb_eq in E. subst. exact Hin.
  - intros Hin. exists k. split; [exact Hin | apply label_eqb_refl].
Qed.

Lemma mem_label_not_In (k : label) (ks : list label) :
  mem label_eqb k ks = false <-> ~ In k ks.
Proof.
  rewrite <- mem_label_In. destruct (mem label_eqb k ks); split; congruence.
Qed.

(** ** The monad *)

Lemma outcome_bind (A B : Type) (c : M A) (k : A -> M B) :
  outcome (bind c k) =
  match outcome c with
  | inl e => inl e
  | inr x => outcome (k x)
  end.
Proof. unfold outcome, bind. destruct (snd c); reflexivity. Qed.

Lemma trace_bind (A B : Type) (c : M A) (k : A -> M B) :
  trace (bind c k) =
  match outcome c with
  | inl _ => trace c
  | inr x => trace c ++ trace (k x)
  end.
Proof. unfold outcome, trace, bind. destruct (snd c); reflexivity. Qed.

Lemma outcome_lift (A : Type) (r : exn + A) : outcome (lift r) = r.
Proof. reflexivity. Qed.

Lemma trace_lift (A : Type) (r : exn + A) : trace (lift r) = [].
Proof. reflexivity. Qed.

Lemma outcome_when (b : bool) (e : event) : outcome (when b (emit e)) = inr tt.
Proof. destruct b; reflexivity. Qed.

Lemma trace_when (b : bool) (e : event) :
  trace (when b (emit e)) = if b then [e] else [].
Proof. destruct b; reflexivity. Qed.

Lemma outcome_getitem (A : Type) (l : list A) (i : nat) :
  outcome (getitem l i) =
  match nth_error l i with
  | Some x => inr x
  | None => inl IndexError
  end.
Proof. unfold getitem. destruct (nth_error l i); reflexivity. Qed.

Lemma trace_getitem (A : Type) (l : list A) (i : nat) : trace (getitem l i) = [].
Proof. unfold getitem. destruct (nth_error l i); reflexivity. Qed.

(** ** The loops *)

(** One token: the four positions are read in turn, whatever the token. *)
Lemma for_coeff_step (v : bool) (tok : str) (rest : list str)
  (acc : list dict) :
  outcome (for_coeff v (tok :: rest) acc) =
  match record_of tok with
  | Some r => outcome (for_coeff v rest (acc ++ [dict_of r]))
  | None => inl IndexError
  end.
Proof.
  cbn [for_coeff]. unfold record_of.
  rewrite outcome_bind, outcome_when.
  repeat (rewrite outcome_bind, outcome_getitem).
  destruct (split colon tok) as [|a [|b [|c [|d extra]]]]; reflexivity.
Qed.

Lemma for_coeff_outcome (v : bool) (toks : list str) :
  forall acc,
    outcome (for_coeff v toks acc) =
    match records_of toks with
    | Some rs => inr (acc ++ map dict_of rs)
    | None => inl IndexError
    end.
Proof.
  induction toks as [|tok toks IH]; intros acc.
  - simpl. rewrite app_nil_r. reflexivity.
  - rewrite for_coeff_step. cbn [records_of].
    destruct (record_of tok) as [r|]; [|reflexivity].
    rewrite IH. destruct (records_of toks) as [rs|]; [|reflexivity].
    cbn [map]. rewrite <- app_assoc. reflexivity.
Qed.

Lemma records_of_app (l1 l2 : list str) :
  records_of (l1 ++ l2) =
  match records_of l1, records_of l2 with
  | Some r1, Some r2 => Some (r1 ++ r2)
  | _, _ => None
  end.
Proof.
  induction l1 as [|tok l1 IH]; simpl.
  - destruct (records_of l2); reflexivity.
  - destruct (record_of tok); [|reflexivity].
    rewrite IH.
    destruct (records_of l1), (records_of l2); reflexivity.
Qed.

Lemma for_line_outcome (v : bool) (lines : list str) :
  forall n acc,
    outcome (for_line v lines n acc) =
    match records_of (fragments_of lines) with
    | Some rs => inr (acc ++ map dict_of rs)
    | None => inl IndexError
    end.
Proof.
  induction lines as [|line lines IH]; intros n acc.
  - simpl. rewrite app_nil_r. reflexivity.
  - cbn [for_line fragments_of flat_map].
    rewrite outcome_bind, outcome_when, outcome_bind, outcome_when.
    destruct (length (split tab line) <=? 1).
    + rewrite IH. reflexivity.
    + rewrite outcome_bind, for_coeff_outcome, records_of_app.
      destruct (records_of (split tab line)) as [r1|]; [|reflexivity].
      rewrite IH. fold (fragments_of lines).
      destruct (records_of (fragments_of lines)) as [r2|]; [|reflexivity].
      rewrite map_app, app_assoc. reflexivity.
Qed.

(** ** The frame built from the collected dicts *)

Lemma columns_seen (rs : list FeatureRecord) :
  unique_from str_eqb
    [WeightValue; FeatureValue; HashValue; Namespace_Feature]
    (flat_map (map fst) (map dict_of rs)) = [].
Proof.
  induction rs as [|r rs IH]; [reflexivity|].
  cbn [map flat_map dict_of fst app unique_from].
  change (mem str_eqb Namespace_Feature
            [WeightValue; FeatureValue; HashValue; Namespace_Feature])
    with true.
  change (mem str_eqb HashValue
            [WeightValue; FeatureValue; HashValue; Namespace_Feature])
    with true.
  change (mem str_eqb FeatureValue
            [WeightValue; FeatureValue; HashValue; Namespace_Feature])
    with true.
  change (mem str_eqb WeightValue
            [WeightValue; FeatureValue; HashValue; Namespace_Feature])
    with true.
  exact IH.
Qed.

Lemma columns_of_records (r : FeatureRecord) (rs : list FeatureRecord) :
  unique_from str_eqb [] (flat_map (map fst) (map dict_of (r :: rs)))
  = [Namespace_Feature; HashValue; FeatureValue; WeightValue].
Proof.
  cbn [map flat_map dict_of fst app unique_from].
  change (mem str_eqb Namespace_Feature []) with false.
  change (mem str_eqb HashValue [Namespace_Feature]) with false.
  change (mem str_eqb FeatureValue [HashValue; Namespace_Feature]) with false.
  change (mem str_eqb WeightValue
            [FeatureValue; HashValue; Namespace_Feature]) with false.
  cbv iota. rewrite columns_seen. reflexivity.
Qed.

Lemma length_duplicated_from (l : list label) :
  forall seen, length (duplicated_from seen l) = length l.
Proof.
  induction l as [|x l IH]; intros seen; simpl; [|rewrite IH]; reflexivity.
Qed.

(** Dropping the marked rows keeps the records first seen. *)
Lemma select_first_seen (B : Type) (g : FeatureRecord -> B)
  (rs : list FeatureRecord) :
  forall seen,
    select (map negb (duplicated_from seen (map key rs))) (map g rs)
    = map g (first_seen_from seen rs).
Proof.
  induction rs as [|r rs IH]; intros seen; [reflexivity|].
  cbn [map duplicated_from select first_seen_from].
  destruct (mem label_eqb (key r) seen); cbn [negb map].
  - apply IH.
  - rewrite IH. reflexivity.
Qed.

(** The frame after [set_index] and the removal of duplicates. *)
Lemma set_index_records (r : FeatureRecord) (rs : list FeatureRecord) :
  set_index key_columns (from_records (map dict_of (r :: rs)))
  = inr (table_of (r :: rs)).
Proof.
  unfold from_records. rewrite columns_of_records.
  unfold set_index, table_of. cbn [columns data index].
  change (filter _ key_columns) with (@nil str).
  cbv iota. f_equal. f_equal.
  - f_equal. rewrite !map_map. apply map_ext. intros x. reflexivity.
  - rewrite !map_map. apply map_ext. intros x. reflexivity.
Qed.

Lemma set_index_empty :
  set_index key_columns (from_records []) = inl (KeyError key_columns).
Proof. reflexivity. Qed.

Lemma drop_duplicates_records (rs : list FeatureRecord) :
  getitem_mask (table_of rs)
    (map negb (duplicated (index (table_of rs))))
  = inr (table_of (first_seen_from [] rs)).
Proof.
  unfold getitem_mask, duplicated. cbn [table_of index labels data names columns].
  rewrite !length_map, length_duplicated_from, length_map, Nat.eqb_refl.
  unfold table_of.
  rewrite 2 select_first_seen. reflexivity.
Qed.

(** ** The parser as a whole *)

Section Parser.

Variable writable : str -> bool.

Local Abbreviation parse := (parse_audit_command writable).

(** What a call of the parser returns or raises, from the tokens alone. *)
Lemma parse_outcome (blob f : str) (v : bool) :
  outcome (parse blob f v) =
  match records_of (fragments blob) with
  | None => inl IndexError
  | Some [] => inl (KeyError key_columns)
  | Some (r :: rs) =>
      if writable f then inr (table_of (first_seen_from [] (r :: rs)))
      else inl OSError
  end.
Proof.
  unfold parse_audit_command.
  rewrite outcome_bind, for_line_outcome.
  fold (normalized_lines blob). fold (fragments blob).
  destruct (records_of (fragments blob)) as [[|r rs]|]; [| |reflexivity];
    cbn [app]; rewrite outcome_bind; unfold lift at 1; unfold outcome at 1;
    cbn [snd]; fold key_columns.
  - change (map dict_of []) with (@nil dict).
    rewrite set_index_empty. reflexivity.
  - rewrite set_index_records.
    rewrite outcome_bind. unfold lift at 1. unfold outcome at 1. cbn [snd].
    rewrite drop_duplicates_records.
    rewrite outcome_bind. unfold to_csv.
    destruct (writable f); reflexivity.
Qed.

Lemma for_coeff_trace (v : bool) (toks : list str) :
  forall acc,
    Forall (fun e => is_parser_print e = true /\ v = true)
      (trace (for_coeff v toks acc)).
Proof.
  induction toks as [|tok toks IH]; intros acc; [constructor|].
  cbn [for_coeff].
  rewrite trace_bind, outcome_when, trace_when.
  apply Forall_app. split.
  - destruct v; repeat constructor.
  - repeat (rewrite trace_bind, outcome_getitem, trace_getitem;
            match goal with
            | |- context [nth_error ?l ?i] => destruct (nth_error l i)
            end; [cbn [app]|constructor]).
    apply IH.
Qed.

Lemma for_line_trace (v : bool) (lines : list str) :
  forall n acc,
    Forall (fun e => is_parser_print e = true /\ v = true)
      (trace (for_line v lines n acc)).
Proof.
  induction lines as [|line lines IH]; intros n acc; [constructor|].
  cbn [for_line].
  rewrite trace_bind, outcome_when, trace_when.
  apply Forall_app. split; [destruct v; repeat constructor|].
  rewrite trace_bind, outcome_when, trace_when.
  apply Forall_app. split; [destruct v; repeat constructor|].
  destruct (length (split tab line) <=? 1); [apply IH|].
  rewrite trace_bind.
  destruct (outcome (for_coeff v (split tab line) acc)) as [e|acc'].
  - apply for_coeff_trace.
  - apply Forall_app. split; [apply for_coeff_trace | apply IH].
Qed.

Lemma for_line_silent (lines : list str) (n : nat) (acc : list dict) :
  trace (for_line false lines n acc) = [].
Proof.
  pose proof (for_line_trace false lines n acc) as H.
  destruct (trace (for_line false lines n acc)) as [|e t]; [reflexivity|].
  inversion H as [|? ? [_ Hv] _]. discriminate Hv.
Qed.

Lemma for_line_only_prints (v : bool) (lines : list str) (n : nat)
  (acc : list dict) :
  filter (fun e => negb (is_print e)) (trace (for_line v lines n acc)) = [].
Proof.
  pose proof (for_line_trace v lines n acc) as H.
  induction H as [|e t [He _] _ IH]; [reflexivity|].
  cbn [filter]. destruct e; try discriminate He; exact IH.
Qed.

(** The events of a call: the diagnostics of the loops, then the write
    of the table when there is one. *)
Lemma parse_trace (blob f : str) (v : bool) :
  trace (parse blob f v) =
  trace (for_line v (normalized_lines blob) 0 []) ++
  match outcome (parse blob f v) with
  | inr df => [write_tsv f df]
  | inl _ => []
  end.
Proof.
  rewrite parse_outcome.
  unfold parse_audit_command.
  rewrite trace_bind, for_line_outcome.
  fold (normalized_lines blob). fold (fragments blob).
  destruct (records_of (fragments blob)) as [[|r rs]|].
  - f_equal.
  - cbn [app]. f_equal. fold key_columns.
    rewrite trace_bind, outcome_lift, trace_lift, set_index_records.
    rewrite trace_bind, outcome_lift, trace_lift, drop_duplicates_records.
    rewrite trace_bind. unfold to_csv.
    destruct (writable f); reflexivity.
  - rewrite app_nil_r. reflexivity.
Qed.

End Parser.

(** ** Keeping the first record of each key *)

Lemma first_seen_In (rs : list FeatureRecord) :
  forall seen r,
    In r (first_seen_from seen rs) -> ~ In (key r) seen /\ In r rs.
Proof.
  induction rs as [|r0 rs IH]; intros seen r Hin; [contradiction|].
  cbn [first_seen_from] in Hin.
  destruct (mem label_eqb (key r0) seen) eqn:Hmem.
  - apply IH in Hin. destruct Hin as [Hseen Hrs].
    split; [|right; exact Hrs].
    intros H. apply Hseen. right. exact H.
  - destruct Hin as [<-|Hin].
    + split; [apply mem_label_not_In; exact Hmem | left; reflexivity].
    + apply IH in Hin. destruct Hin as [Hseen Hrs].
      split; [|right; exact Hrs].
      intros H. apply Hseen. right. exact H.
Qed.

Lemma first_seen_key_fresh (rs : list FeatureRecord) (seen : list label)
  (k0 : label) (r : FeatureRecord) :
  In r (first_seen_from (k0 :: seen) rs) -> label_eqb k0 (key r) = false.
Proof.
  intros Hin. apply first_seen_In in Hin. destruct Hin as [Hseen _].
  apply label_eqb_neq. intros E. apply Hseen. left. exact E.
Qed.

Lemma first_seen_NoDup (rs : list FeatureRecord) :
  forall seen, NoDup (map key (first_seen_from seen rs)).
Proof.
  induction rs as [|r rs IH]; intros seen; [constructor|].
  cbn [first_seen_from].
  destruct (mem label_eqb (key r) seen); [apply IH|].
  cbn [map]. constructor; [|apply IH].
  intros Hin. apply in_map_iff in Hin. destruct Hin as [r' [E Hin]].
  apply first_seen_In in Hin. destruct Hin as [Hseen _].
  apply Hseen. left. symmetry. exact E.
Qed.

Lemma first_seen_complete (rs : list FeatureRecord) :
  forall seen k,
    In k (map key rs) -> ~ In k seen ->
    In k (map key (first_seen_from seen rs)).
Proof.
  induction rs as [|r rs IH]; intros seen k Hin Hseen; [contradiction|].
  cbn [first_seen_from].
  destruct (label_eqb (key r) k) eqn:E.
  - apply label_eqb_eq in E. subst k.
    apply mem_label_not_In in Hseen. rewrite Hseen. left. reflexivity.
  - apply label_eqb_neq in E.
    destruct Hin as [Hin|Hin]; [contradiction|].
    assert (Hk : In k (map key (first_seen_from (key r :: seen) rs))).
    { apply IH; [exact Hin|]. intros [H|H]; [apply E, H | apply Hseen, H]. }
    destruct (mem label_eqb (key r) seen); [exact Hk | right; exact Hk].
Qed.

Lemma first_seen_order (rs : list FeatureRecord) :
  forall seen i j ri rj,
    i < j ->
    nth_error (first_seen_from seen rs) i = Some ri ->
    nth_error (first_seen_from seen rs) j = Some rj ->
    first_index (key ri) (map key rs) < first_index (key rj) (map key rs).
Proof.
  induction rs as [|r rs IH]; intros seen i j ri rj Hij Hi Hj.
  - destruct i; discriminate Hi.
  - cbn [first_seen_from] in Hi, Hj. cbn [map first_index].
    destruct (mem label_eqb (key r) seen).
    + rewrite (first_seen_key_fresh rs seen (key r) ri)
        by (eapply nth_error_In; exact Hi).
      rewrite (first_seen_key_fresh rs seen (key r) rj)
        by (eapply nth_error_In; exact Hj).
      apply -> Nat.succ_lt_mono. eapply IH; eassumption.
    + destruct j as [|j]; [lia|]. cbn [nth_error] in Hj.
      rewrite (first_seen_key_fresh rs seen (key r) rj)
        by (eapply nth_error_In; exact Hj).
      destruct i as [|i]; cbn [nth_error] in Hi.
      * injection Hi as <-. rewrite label_eqb_refl. lia.
      * rewrite (first_seen_key_fresh rs seen (key r) ri)
          by (eapply nth_error_In; exact Hi).
        apply -> Nat.succ_lt_mono. eapply IH; [|eassumption..]. lia.
Qed.

(** The rows of one key: the first record that carries it, when it has
    not been seen, and nothing otherwise. *)
Lemma first_seen_filter (k : label) (rs : list FeatureRecord) :
  forall seen,
    filter (fun r => label_eqb (key r) k) (first_seen_from seen rs) =
    if mem label_eqb k seen then []
    else match find (fun r => label_eqb (key r) k) rs with
         | Some r => [r]
         | None => []
         end.
Proof.
  induction rs as [|r rs IH]; intros seen.
  - simpl. destruct (mem label_eqb k seen); reflexivity.
  - cbn [first_seen_from find].
    destruct (label_eqb (key r) k) eqn:E.
    + apply label_eqb_eq in E. subst k.
      destruct (mem label_eqb (key r) seen) eqn:Hmem.
      * rewrite IH. cbn [mem existsb]. rewrite label_eqb_refl. reflexivity.
      * cbn [filter]. rewrite label_eqb_refl, IH.
        cbn [mem existsb]. rewrite label_eqb_refl. reflexivity.
    + assert (Hk : mem label_eqb k (key r :: seen) = mem label_eqb k seen).
      { cbn [mem existsb].
        replace (label_eqb k (key r)) with false; [reflexivity|].
        symmetry. apply label_eqb_neq. apply label_eqb_neq in E. congruence. }
      destruct (mem label_eqb (key r) seen).
      * rewrite IH, Hk. reflexivity.
      * cbn [filter]. rewrite E, IH, Hk. reflexivity.
Qed.

(** ** Tokens and the records read from them *)

Lemma records_of_Forall2 (toks : list str) :
  forall rs,
    records_of toks = Some rs ->
    Forall2 (fun tok r => record_of tok = Some r) toks rs.
Proof.
  induction toks as [|tok toks IH]; intros rs H; cbn [records_of] in H.
  - injection H as <-. constructor.
  - destruct (record_of tok) as [r|] eqn:Hr; [|discriminate].
    destruct (records_of toks) as [rs'|]; [|discriminate].
    injection H as <-. constructor; [exact Hr | apply IH; reflexivity].
Qed.

Lemma record_of_key (tok : str) (r : FeatureRecord) :
  record_of tok = Some r -> token_key tok = key r.
Proof.
  unfold record_of, token_key.
  destruct (split colon tok) as [|a [|b [|c [|d extra]]]]; try discriminate.
  intros H. injection H as <-. reflexivity.
Qed.

Lemma record_of_weight (tok : str) (r : FeatureRecord) :
  record_of tok = Some r -> nth 3 (split colon tok) [] = weightValue r.
Proof.
  unfold record_of.
  destruct (split colon tok) as [|a [|b [|c [|d extra]]]]; try discriminate.
  intros H. injection H as <-. reflexivity.
Qed.

Lemma record_of_None (tok : str) :
  record_of tok = None <-> length (split colon tok) < 4.
Proof.
  unfold record_of.
  destruct (split colon tok) as [|a [|b [|c [|d extra]]]]; simpl;
    split; try discriminate; try lia; reflexivity.
Qed.

Lemma records_of_None (toks : list str) :
  records_of toks = None <->
  exists tok, In tok toks /\ length (split colon tok) < 4.
Proof.
  induction toks as [|tok toks IH]; cbn [records_of].
  - split; [discriminate | intros [? [[] _]]].
  - destruct (record_of tok) as [r|] eqn:Hr.
    + destruct (records_of toks) as [rs|].
      * split; [discriminate|].
        intros [t [[<-|Hin] Hlen]].
        -- apply record_of_None in Hlen. congruence.
        -- assert (H : Some rs = None)
             by (apply IH; exists t; split; assumption).
           discriminate H.
      * split; [|reflexivity]. intros _.
        destruct IH as [IH _]. destruct (IH eq_refl) as [t [Hin Hlen]].
        exists t. split; [right; exact Hin | exact Hlen].
    + split; [|reflexivity]. intros _.
      exists tok. split; [left; reflexivity | apply record_of_None, Hr].
Qed.

Lemma scanned_keys (toks : list str) (rs : list FeatureRecord) :
  Forall2 (fun tok r => record_of tok = Some r) toks rs ->
  map token_key toks = map key rs.
Proof.
  induction 1 as [|tok r toks rs Hr _ IH]; [reflexivity|].
  cbn [map]. rewrite IH, (record_of_key tok Hr). reflexivity.
Qed.

Lemma find_first_record (k : label) (toks : list str)
  (rs : list FeatureRecord) :
  Forall2 (fun tok r => record_of tok = Some r) toks rs ->
  forall tok,
    find (fun t => label_eqb (token_key t) k) toks = Some tok ->
    exists r, find (fun r => label_eqb (key r) k) rs = Some r
              /\ record_of tok = Some r.
Proof.
  induction 1 as [|tok0 r0 toks rs Hr _ IH]; intros tok Hfind;
    [discriminate|].
  cbn [find] in *. rewrite (record_of_key tok0 Hr) in Hfind.
  destruct (label_eqb (key r0) k).
  - injection Hfind as <-. exists r0. split; [reflexivity | exact Hr].
  - apply IH. exact Hfind.
Qed.

Lemma rows_table_of (rs : list FeatureRecord) :
  rows (table_of rs) = map row_of rs.
Proof.
  unfold rows, table_of. cbn [index labels data].
  induction rs as [|r rs IH]; [reflexivity|].
  cbn [map combine]. rewrite IH. reflexivity.
Qed.

Lemma filter_map_rows (A B : Type) (g : A -> B) (p : B -> bool)
  (l : list A) :
  filter p (map g l) = map g (filter (fun x => p (g x)) l).
Proof.
  induction l as [|x l IH]; [reflexivity|].
  cbn [map filter]. destruct (p (g x)); cbn [map]; rewrite IH; reflexivity.
Qed.

Lemma In_fragments (blob tok : str) :
  In tok (fragments blob) <->
  exists line, In line (normalized_lines blob)
               /\ 2 <= length (split tab line) /\ In tok (split tab line).
Proof.
  unfold fragments, fragments_of. rewrite in_flat_map.
  split; intros [line [Hline H]]; exists line.
  - destruct (length (split tab line) <=? 1) eqn:E; [contradiction|].
    apply Nat.leb_gt in E. repeat split; [exact Hline | lia | exact H].
  - destruct H as [Hlen Htok]. split; [exact Hline|].
    destruct (length (split tab line) <=? 1) eqn:E; [|exact Htok].
    apply Nat.leb_le in E. lia.
Qed.

Lemma fragments_nil (blob : str) :
  (forall line, In line (normalized_lines blob) ->
                length (split tab line) <= 1) ->
  fragments blob = [].
Proof.
  intros H. destruct (fragments blob) as [|tok toks] eqn:E; [reflexivity|].
  assert (Hin : In tok (fragments blob)) by (rewrite E; left; reflexivity).
  apply In_fragments in Hin. destruct Hin as [line [Hline [Hlen _]]].
  apply H in Hline. lia.
Qed.

(** ** Trimming never adds a token *)

Lemma length_split_from (sep : char) (s : str) :
  forall cur,
    length (split_from sep cur s)
    = S (length (filter (fun c => (c =? sep)%N) s)).
Proof.
  induction s as [|c s IH]; intros cur; [reflexivity|].
  cbn [split_from filter]. destruct (c =? sep)%N; cbn [length]; rewrite IH;
    reflexivity.
Qed.

Lemma filter_lstrip_le (p : char -> bool) (s : str) :
  length (filter p (lstrip s)) <= length (filter p s).
Proof.
  induction s as [|c s IH]; [reflexivity|].
  cbn [lstrip]. destruct (is_space c); [|reflexivity].
  cbn [filter]. destruct (p c); cbn [length]; lia.
Qed.

Lemma length_filter_rev (p : char -> bool) (s : str) :
  length (filter p (rev s)) = length (filter p s).
Proof.
  induction s as [|c s IH]; [reflexivity|].
  cbn [rev filter]. rewrite filter_app, length_app, IH. cbn [filter].
  destruct (p c); cbn [length]; lia.
Qed.

Lemma split_strip_le (sep : char) (line : str) :
  length (split sep (strip line)) <= length (split sep line).
Proof.
  unfold split, strip, rstrip. rewrite !length_split_from.
  apply le_n_S. rewrite length_filter_rev.
  etransitivity; [apply filter_lstrip_le|].
  rewrite length_filter_rev. apply filter_lstrip_le.
Qed.

(** A blob whose lines have no tab has no trimmed line with two tokens. *)
Lemma untabbed_lines (blob : str) :
  (forall line, In line (splitlines blob) -> length (split tab line) <= 1) ->
  forall line, In line (normalized_lines blob) ->
               length (split tab line) <= 1.
Proof.
  intros H line Hin. unfold normalized_lines in Hin.
  apply in_map_iff in Hin. destruct Hin as [raw [<- Hraw]].
  etransitivity; [apply split_strip_le | apply H, Hraw].
Qed.

(** ** The claims about the parser *)

Section ParserClaims.

Variable writable : str -> bool.

Local Abbreviation parse := (parse_audit_command writable).

(** What a returned table is: the first-seen records of the scan. *)
Lemma parse_returns (blob f : str) (v : bool) (df : DataFrame) :
  outcome (parse blob f v) = inr df ->
  exists rs, records_of (fragments blob) = Some rs
             /\ df = table_of (first_seen_from [] rs).
Proof.
  rewrite parse_outcome.
  destruct (records_of (fragments blob)) as [[|r rs]|]; try discriminate.
  destruct (writable f); [|discriminate].
  intros H. injection H as <-. exists (r :: rs). split; reflexivity.
Qed.

Lemma parse_IndexError_iff (blob f : str) (v : bool) :
  outcome (parse blob f v) = inl IndexError <->
  exists line tok,
    In line (normalized_lines blob) /\ 2 <= length (split tab line)
    /\ In tok (split tab line) /\ length (split colon tok) < 4.
Proof.
  rewrite parse_outcome. split.
  - intros H.
    assert (Hnone : records_of (fragments blob) = None).
    { destruct (records_of (fragments blob)) as [[|r rs]|];
        [discriminate H | | reflexivity].
      destruct (writable f); discriminate H. }
    apply records_of_None in Hnone. destruct Hnone as [tok [Hin Hlen]].
    apply In_fragments in Hin. destruct Hin as [line [Hline [H2 Htok]]].
    exists line, tok. repeat split; assumption.
  - intros [line [tok [Hline [H2 [Htok Hlen]]]]].
    assert (Hnone : records_of (fragments blob) = None).
    { apply records_of_None. exists tok. split; [|exact Hlen].
      apply In_fragments. exists line. repeat split; assumption. }
    rewrite Hnone. reflexivity.
Qed.

(** C1 (the code departs from it): on a blob that is empty or has no line
    with at least two tab-separated tokens, the parser collects nothing,
    builds a frame without columns, and [set_index] raises KeyError for
    the three key columns instead of returning a table without rows. *)
Theorem C1_no_coefficient_line_raises_KeyError (blob f : str) (v : bool) :
  (forall line, In line (normalized_lines blob) ->
                length (split tab line) <= 1) ->
  outcome (parse blob f v)
  = inl (KeyError [Namespace_Feature; HashValue; FeatureValue]).
Proof.
  intros H. rewrite parse_outcome, (fragments_nil blob H). reflexivity.
Qed.

(** C2: the parser raises IndexError exactly when some trimmed line with
    at least two tab-separated tokens has a token with fewer than four
    colon-separated parts; and on every token of such a line the four
    positions 0 to 3 are read, with no test of the number of parts. *)
Theorem C2_IndexError_iff_short_token (blob f : str) (v : bool) :
  (outcome (parse blob f v) = inl IndexError <->
   exists line tok,
     In line (normalized_lines blob) /\ 2 <= length (split tab line)
     /\ In tok (split tab line) /\ length (split colon tok) < 4)
  /\
  (forall tok rest acc,
     outcome (for_coeff v (tok :: rest) acc) =
     match nth_error (split colon tok) 0, nth_error (split colon tok) 1,
           nth_error (split colon tok) 2, nth_error (split colon tok) 3 with
     | Some t0, Some t1, Some t2, Some t3 =>
         outcome (for_coeff v rest
                    (acc ++ [[(Namespace_Feature, t0); (HashValue, t1);
                              (FeatureValue, t2); (WeightValue, t3)]]))
     | _, _, _, _ => inl IndexError
     end).
Proof.
  split.
  - apply parse_IndexError_iff.
  - intros tok rest acc. rewrite for_coeff_step. unfold record_of.
    destruct (split colon tok) as [|a [|b [|c [|d extra]]]]; reflexivity.
Qed.

(** C3: when the parser returns a table and [tok] is the first token of
    the scan with composite key [k], the table has exactly one row with
    key [k], and that row carries the weight of [tok]: every later token
    with the same key leaves no trace.  For the tokens a:1:1:0.1 and
    a:1:1:0.9 on one line the only row is (a, 1, 1) with weight 0.1. *)
Theorem C3_first_seen_record_kept :
  (forall blob f v df,
     outcome (parse blob f v) = inr df ->
     forall k tok,
       find (fun t => label_eqb (token_key t) k) (fragments blob) = Some tok ->
       filter (fun row => label_eqb (fst row) k) (rows df)
       = [(k, [Str (nth 3 (split colon tok) [])])])
  /\
  (forall f v,
     writable f = true ->
     exists df,
       outcome (parse (lit "a:1:1:0.1" ++ [tab] ++ lit "a:1:1:0.9") f v)
       = inr df
       /\ rows df = [([Str (lit "a"); Str (lit "1"); Str (lit "1")],
                      [Str (lit "0.1")])]).
Proof.
  split.
  - intros blob f v df Hdf k tok Hfind.
    apply parse_returns in Hdf. destruct Hdf as [rs [Hrs ->]].
    apply records_of_Forall2 in Hrs.
    destruct (find_first_record k Hrs Hfind) as [r [Hr Htok]].
    rewrite rows_table_of, filter_map_rows. cbn [row_of fst].
    rewrite first_seen_filter, Hr. cbn [mem existsb map].
    apply find_some in Hr. destruct Hr as [_ Hk].
    apply label_eqb_eq in Hk.
    rewrite (record_of_weight tok Htok), <- Hk. reflexivity.
  - intros f v Hw. rewrite parse_outcome, Hw.
    eexists. split; reflexivity.
Qed.

(** C4: in a table that the parser returns, the index has the three key
    levels and no two rows have the same composite key. *)
Theorem C4_keys_unique (blob f : str) (v : bool) (df : DataFrame) :
  outcome (parse blob f v) = inr df ->
  names (index df) = [Some Namespace_Feature; Some HashValue;
                      Some FeatureValue]
  /\ NoDup (map fst (rows df))
  /\ (forall i j ri rj,
        nth_error (rows df) i = Some ri -> nth_error (rows df) j = Some rj ->
        i <> j -> fst ri <> fst rj).
Proof.
  intros Hdf. apply parse_returns in Hdf. destruct Hdf as [rs [_ ->]].
  assert (Hnd : NoDup (map fst (rows (table_of (first_seen_from [] rs))))).
  { rewrite rows_table_of, map_map. apply first_seen_NoDup. }
  split; [reflexivity|]. split; [exact Hnd|].
  intros i j ri rj Hi Hj Hij E. apply Hij.
  rewrite NoDup_nth_error in Hnd. apply Hnd.
  - rewrite <- nth_error_Some, nth_error_map, Hi. discriminate.
  - rewrite !nth_error_map, Hi, Hj. cbn [option_map]. congruence.
Qed.

(** C5: in a table that the parser returns, the keys of the rows are the
    keys of the scanned tokens, and a row stands before another exactly as
    the first occurrence of its key stands before that of the other in the
    scan (lines top to bottom, tokens left to right). *)
Theorem C5_rows_in_first_occurrence_order (blob f : str) (v : bool)
  (df : DataFrame) :
  outcome (parse blob f v) = inr df ->
  (forall k, In k (map fst (rows df))
             <-> In k (map token_key (fragments blob)))
  /\
  (forall i j ki kj,
     i < j ->
     nth_error (map fst (rows df)) i = Some ki ->
     nth_error (map fst (rows df)) j = Some kj ->
     first_index ki (map token_key (fragments blob))
     < first_index kj (map token_key (fragments blob))).
Proof.
  intros Hdf. apply parse_returns in Hdf. destruct Hdf as [rs [Hrs ->]].
  apply records_of_Forall2 in Hrs.
  rewrite (scanned_keys Hrs), rows_table_of, map_map.
  change (fun x => fst (row_of x)) with key.
  split.
  - intros k. split.
    + intros Hin. apply in_map_iff in Hin. destruct Hin as [r [<- Hin]].
      apply first_seen_In in Hin. apply in_map. apply Hin.
    + intros Hin. apply first_seen_complete; [exact Hin | intros []].
  - intros i j ki kj Hij Hi Hj.
    rewrite nth_error_map in Hi, Hj.
    destruct (nth_error (first_seen_from [] rs) i) as [ri|] eqn:Ei;
      [|discriminate].
    destruct (nth_error (first_seen_from [] rs) j) as [rj|] eqn:Ej;
      [|discriminate].
    injection Hi as <-. injection Hj as <-.
    eapply first_seen_order; eassumption.
Qed.

(** C7, as the code has it: a token with only two colon-separated parts on a line
    with at least two tab-separated tokens makes the parser raise
    IndexError; no table is returned and none is written. *)
Theorem C7_two_part_token_raises_IndexError (blob f : str) (v : bool)
  (line tok : str) :
  In line (normalized_lines blob) ->
  2 <= length (split tab line) ->
  In tok (split tab line) ->
  length (split colon tok) = 2 ->
  outcome (parse blob f v) = inl IndexError
  /\ forall path df, ~ In (write_tsv path df) (trace (parse blob f v)).
Proof.
  intros Hline H2 Htok Hlen.
  assert (Hexn : outcome (parse blob f v) = inl IndexError).
  { apply parse_IndexError_iff.
    exists line, tok. repeat split; try assumption. lia. }
  split; [exact Hexn|].
  intros path df Hin. rewrite parse_trace, Hexn, app_nil_r in Hin.
  pose proof (for_line_trace v (normalized_lines blob) 0 []) as Hall.
  rewrite Forall_forall in Hall. apply Hall in Hin.
  destruct Hin as [Hp _]. discriminate Hp.
Qed.

End ParserClaims.

(** C10: a token with more than four colon-separated parts gives the dict
    of its first four parts, whatever follows them, and raises nothing;
    in the list collected from a blob the dict stands at the position of
    the token in the scan. *)
Theorem C10_extra_parts_discarded (v : bool) (tok a b c d e : str)
  (extra : list str) :
  split colon tok = a :: b :: c :: d :: e :: extra ->
  (forall acc,
     outcome (for_coeff v [tok] acc)
     = inr (acc ++ [[(Namespace_Feature, a); (HashValue, b);
                     (FeatureValue, c); (WeightValue, d)]]))
  /\
  (forall blob i coeff_list,
     nth_error (fragments blob) i = Some tok ->
     outcome (for_line v (normalized_lines blob) 0 []) = inr coeff_list ->
     nth_error coeff_list i
     = Some [(Namespace_Feature, a); (HashValue, b);
             (FeatureValue, c); (WeightValue, d)]).
Proof.
  intros Hsplit.
  assert (Hr : record_of tok = Some (mkFeatureRecord a b c d))
    by (unfold record_of; rewrite Hsplit; reflexivity).
  split.
  - intros acc. rewrite for_coeff_step, Hr. reflexivity.
  - intros blob i coeff_list Hi. rewrite for_line_outcome.
    fold (fragments blob).
    destruct (records_of (fragments blob)) as [rs|] eqn:Hrs; [|discriminate].
    intros H. injection H as <-. cbn [app].
    apply records_of_Forall2 in Hrs.
    revert i Hi. induction Hrs as [|tok0 r0 toks rs Hr0 _ IH]; intros i Hi.
    + destruct i; discriminate Hi.
    + destruct i as [|i]; cbn [nth_error map] in *.
      * injection Hi as ->. rewrite Hr in Hr0. injection Hr0 as <-.
        reflexivity.
      * apply IH. exact Hi.
Qed.

(** ** The command runner and the entry point *)

Section Pipeline.

Variable check_output : str -> exn + list byte.
Variable decode : list byte -> exn + str.
Variable writable : str -> bool.

Local Abbreviation run := (run_vw_audit_command check_output decode).
Local Abbreviation parse := (parse_audit_command writable).
Local Abbreviation pprint := (pprint_vw_audit check_output decode writable).

(** The command line built from the arguments. *)
Lemma run_outcome (model log : str) (pred : option str) (verbose : bool)
  (base : str) :
  outcome (run model log pred verbose base) =
  match check_output
          ((if truth pred then base ++ lit " -p " ++ format pred else base)
             ++ lit " -i " ++ model ++ lit " --dsjson " ++ log
             ++ lit " --audit") with
  | inl e => inl e
  | inr captured => decode captured
  end.
Proof.
  unfold run_vw_audit_command.
  rewrite outcome_bind, outcome_when, outcome_bind. cbn [outcome emit snd].
  rewrite outcome_bind, outcome_lift.
  destruct (check_output _) as [e|captured]; [reflexivity|].
  rewrite outcome_bind, outcome_lift.
  destruct (decode captured) as [e|out]; [reflexivity|].
  rewrite outcome_bind, outcome_when. reflexivity.
Qed.

Lemma run_trace (model log : str) (pred : option str) (verbose : bool)
  (base : str) :
  let cmd := (if truth pred then base ++ lit " -p " ++ format pred else base)
               ++ lit " -i " ++ model ++ lit " --dsjson " ++ log
               ++ lit " --audit" in
  trace (run model log pred verbose base) =
  (if verbose then [print_command cmd] else []) ++ [run_process cmd] ++
  match outcome (run model log pred verbose base) with
  | inr out => if verbose then [print_output out] else []
  | inl _ => []
  end.
Proof.
  intros cmd. rewrite run_outcome. fold cmd.
  unfold run_vw_audit_command. fold cmd.
  rewrite trace_bind, outcome_when, trace_when. f_equal.
  rewrite trace_bind. cbn [outcome emit snd trace fst]. f_equal.
  rewrite trace_bind, outcome_lift, trace_lift.
  destruct (check_output cmd) as [e|captured]; [reflexivity|].
  rewrite trace_bind, outcome_lift, trace_lift.
  destruct (decode captured) as [e|out]; [reflexivity|].
  rewrite trace_bind, outcome_when, trace_when. cbn [app].
  destruct verbose; reflexivity.
Qed.

(** C8: the runner executes one command, the base command, then
    [-p <pred_file>] when a non-empty prediction path is given, then
    [-i <model> --dsjson <log> --audit]; it returns the decoded text of
    everything the command wrote to its standard output, and a failure of
    the command or of the decoding is raised. *)
Theorem C8_runner_executes_audit_command (model log : str)
  (pred : option str) (verbose : bool) (base : str) :
  let flag := match pred with
              | Some (c :: p) => lit " -p " ++ c :: p
              | Some [] | None => []
              end in
  let cmd := base ++ flag ++ lit " -i " ++ model ++ lit " --dsjson " ++ log
               ++ lit " --audit" in
  filter is_run_process (trace (run model log pred verbose base))
  = [run_process cmd]
  /\ outcome (run model log pred verbose base)
     = match check_output cmd with
       | inl e => inl e
       | inr captured => decode captured
       end.
Proof.
  intros flag cmd.
  assert (Hcmd : (if truth pred then base ++ lit " -p " ++ format pred
                  else base)
                 ++ lit " -i " ++ model ++ lit " --dsjson " ++ log
                 ++ lit " --audit" = cmd).
  { unfold cmd, flag. destruct pred as [[|c p]|]; cbn [truth format].
    - reflexivity.
    - rewrite <- !app_assoc. reflexivity.
    - reflexivity. }
  split.
  - rewrite run_trace, Hcmd.
    destruct verbose; cbn [app filter is_run_process];
      destruct (outcome _) as [e|out]; reflexivity.
  - rewrite run_outcome, Hcmd. reflexivity.
Qed.

(** C9: the parser returns the same table, or raises the same exception,
    with and without [verbose], and its events other than printing are
    the same; the entry point calls the parser with [verbose] false
    whatever its own flag is, so that none of the parser's diagnostics
    appears among its events. *)
Theorem C9_verbose_only_prints :
  (forall blob f,
     outcome (parse blob f true) = outcome (parse blob f false)
     /\ filter (fun e => negb (is_print e)) (trace (parse blob f true))
        = trace (parse blob f false))
  /\
  (forall model log f pred verbose base,
     pprint model log f pred verbose base
     = (vw_cmd_output <- run model log pred verbose base ;;
        parse vw_cmd_output f false ;; ret tt)
     /\ forall e, In e (trace (pprint model log f pred verbose base)) ->
                  is_parser_print e = false).
Proof.
  split.
  - intros blob f.
    assert (Hout : outcome (parse blob f true) = outcome (parse blob f false))
      by (rewrite !parse_outcome; reflexivity).
    split; [exact Hout|].
    rewrite !parse_trace, Hout, filter_app, for_line_only_prints,
      for_line_silent.
    destruct (outcome (parse blob f false)); reflexivity.
  - intros model log f pred verbose base. split; [reflexivity|].
    intros e. unfold pprint_vw_audit.
    rewrite trace_bind, run_trace.
    set (cmd := _ ++ lit " -i " ++ model ++ lit " --dsjson " ++ log
                  ++ lit " --audit").
    assert (Hrun : forall t : list event,
               In e ((if verbose then [print_command cmd] else [])
                     ++ [run_process cmd] ++ t) ->
               (forall e', In e' t -> is_parser_print e' = false) ->
               is_parser_print e = false).
    { intros t Hin Ht. apply in_app_or in Hin. destruct Hin as [Hin|Hin].
      - destruct verbose; [|contradiction].
        destruct Hin as [<-|[]]. reflexivity.
      - destruct Hin as [<-|Hin]; [reflexivity | apply Ht, Hin]. }
    destruct (outcome (run model log pred verbose base)) as [ex|out].
    + intros Hin. apply (Hrun [] Hin). intros e' [].
    + rewrite <- !app_assoc. intros Hin. apply (Hrun _ Hin).
      intros e' He'. apply in_app_or in He'. destruct He' as [He'|He'].
      * destruct verbose; [|contradiction].
        destruct He' as [<-|[]]. reflexivity.
      * rewrite trace_bind, parse_trace, for_line_silent in He'.
        destruct (outcome (parse out f false)) as [ex|df];
          cbn [app trace ret fst] in He'; [contradiction|].
        destruct He' as [<-|[]]. reflexivity.
Qed.

(** C6, as the code has it: the blob made of the single line
    ns^feat:abcd1234:1.0:0.532 has one tab-separated token, so the loop
    skips the line and collects nothing from it; when the same token
    stands on a line with a second token, as in the token, a tab and the
    token again, the table has exactly one row, with the fields ns^feat,
    abcd1234, 1.0 and 0.532. *)
Theorem C6_single_token_line_collects_nothing :
  let tok := lit "ns^feat:abcd1234:1.0:0.532" in
  map (split tab) (normalized_lines tok) = [[tok]]
  /\ (forall v, outcome (for_line v (normalized_lines tok) 0 []) = inr [])
  /\ (forall f v,
        writable f = true ->
        exists df,
          outcome (parse (tok ++ [tab] ++ tok) f v) = inr df
          /\ rows df = [([Str (lit "ns^feat"); Str (lit "abcd1234");
                          Str (lit "1.0")], [Str (lit "0.532")])]).
Proof.
  intros tok. split; [reflexivity|]. split.
  - intros v. rewrite for_line_outcome. reflexivity.
  - intros f v Hw. rewrite parse_outcome, Hw.
    eexists. split; reflexivity.
Qed.

End Pipeline.

(** ** The claims on the sample inputs *)

Lemma C1_witness :
  (forall line, In line (normalized_lines header_blob) ->
                length (split tab line) <= 1)
  /\ outcome (parse_audit_command any_path header_blob audit_path false)
     = inl (KeyError [Namespace_Feature; HashValue; FeatureValue]).
Proof.
  assert (H : forall line, In line (normalized_lines header_blob) ->
                           length (split tab line) <= 1).
  { intros line [<-|[]]. vm_compute. lia. }
  split; [exact H|].
  exact (C1_no_coefficient_line_raises_KeyError any_path header_blob
           audit_path false H).
Defined.

(** The empty blob raises KeyError as well. *)
Example C1_empty_blob :
  outcome (parse_audit_command any_path [] audit_path false)
  = inl (KeyError [Namespace_Feature; HashValue; FeatureValue]).
Proof. reflexivity. Qed.

Lemma C3_witness :
  outcome (parse_audit_command any_path duplicate_blob audit_path false)
  = inr (table_of [mkFeatureRecord (lit "a") (lit "1") (lit "1")
                     (lit "0.1")])
  /\ find (fun t => label_eqb (token_key t)
                      [Str (lit "a"); Str (lit "1"); Str (lit "1")])
       (fragments duplicate_blob) = Some (lit "a:1:1:0.1")
  /\ filter (fun row => label_eqb (fst row)
                          [Str (lit "a"); Str (lit "1"); Str (lit "1")])
       (rows (table_of [mkFeatureRecord (lit "a") (lit "1") (lit "1")
                          (lit "0.1")]))
     = [([Str (lit "a"); Str (lit "1"); Str (lit "1")],
         [Str (lit "0.1")])].
Proof.
  split; [vm_compute; reflexivity|].
  split; [vm_compute; reflexivity|].
  apply (proj1 (C3_first_seen_record_kept any_path) duplicate_blob
           audit_path false _ eq_refl _ (lit "a:1:1:0.1")).
  vm_compute. reflexivity.
Defined.

Lemma C4_witness :
  outcome (parse_audit_command any_path two_line_blob audit_path false)
  = inr (table_of [mkFeatureRecord (lit "b") (lit "2") (lit "2") (lit "0.5");
                   mkFeatureRecord (lit "a") (lit "1") (lit "1") (lit "0.1");
                   mkFeatureRecord (lit "c") (lit "3") (lit "3") (lit "1")])
  /\ NoDup (map fst (rows (table_of
       [mkFeatureRecord (lit "b") (lit "2") (lit "2") (lit "0.5");
        mkFeatureRecord (lit "a") (lit "1") (lit "1") (lit "0.1");
        mkFeatureRecord (lit "c") (lit "3") (lit "3") (lit "1")]))).
Proof.
  assert (H : outcome (parse_audit_command any_path two_line_blob audit_path
                         false)
              = inr (table_of
                  [mkFeatureRecord (lit "b") (lit "2") (lit "2") (lit "0.5");
                   mkFeatureRecord (lit "a") (lit "1") (lit "1") (lit "0.1");
                   mkFeatureRecord (lit "c") (lit "3") (lit "3") (lit "1")])).
  { vm_compute. reflexivity. }
  split; [exact H|].
  exact (proj1 (proj2 (C4_keys_unique any_path two_line_blob audit_path
                         false H))).
Defined.

Lemma C5_witness :
  outcome (parse_audit_command any_path two_line_blob audit_path false)
  = inr (table_of [mkFeatureRecord (lit "b") (lit "2") (lit "2") (lit "0.5");
                   mkFeatureRecord (lit "a") (lit "1") (lit "1") (lit "0.1");
                   mkFeatureRecord (lit "c") (lit "3") (lit "3") (lit "1")])
  /\ first_index [Str (lit "a"); Str (lit "1"); Str (lit "1")]
       (map token_key (fragments two_line_blob))
     < first_index [Str (lit "c"); Str (lit "3"); Str (lit "3")]
         (map token_key (fragments two_line_blob)).
Proof.
  assert (H : outcome (parse_audit_command any_path two_line_blob audit_path
                         false)
              = inr (table_of
                  [mkFeatureRecord (lit "b") (lit "2") (lit "2") (lit "0.5");
                   mkFeatureRecord (lit "a") (lit "1") (lit "1") (lit "0.1");
                   mkFeatureRecord (lit "c") (lit "3") (lit "3") (lit "1")])).
  { vm_compute. reflexivity. }
  split; [exact H|].
  apply (proj2 (C5_rows_in_first_occurrence_order any_path two_line_blob
                  audit_path false H) 1 2).
  - lia.
  - vm_compute. reflexivity.
  - vm_compute. reflexivity.
Defined.

Lemma C6_counterexample :
  ~ exists df,
      outcome (parse_audit_command any_path single_token_blob audit_path
                 false) = inr df
      /\ rows df = [([Str (lit "ns^feat"); Str (lit "abcd1234");
                      Str (lit "1.0")], [Str (lit "0.532")])].
Proof.
  intros [df [H _]]. vm_compute in H. discriminate H.
Qed.

Lemma C6_witness :
  any_path audit_path = true
  /\ exists df,
       outcome (parse_audit_command any_path
                  (single_token_blob ++ [tab] ++ single_token_blob)
                  audit_path false) = inr df
       /\ rows df = [([Str (lit "ns^feat"); Str (lit "abcd1234");
                       Str (lit "1.0")], [Str (lit "0.532")])].
Proof.
  split; [reflexivity|].
  apply (proj2 (proj2 (C6_single_token_line_collects_nothing any_path))).
  reflexivity.
Defined.

Lemma C7_counterexample :
  In short_token_blob (normalized_lines short_token_blob)
  /\ 2 <= length (split tab short_token_blob)
  /\ In (lit "a:b") (split tab short_token_blob)
  /\ length (split colon (lit "a:b")) = 2
  /\ ~ exists df,
        outcome (parse_audit_command any_path short_token_blob audit_path
                   false) = inr df.
Proof.
  split; [left; reflexivity|].
  split; [vm_compute; lia|].
  split; [left; reflexivity|].
  split; [reflexivity|].
  intros [df H]. vm_compute in H. discriminate H.
Qed.

Lemma C7_witness :
  In short_token_blob (normalized_lines short_token_blob)
  /\ 2 <= length (split tab short_token_blob)
  /\ In (lit "a:b") (split tab short_token_blob)
  /\ length (split colon (lit "a:b")) = 2
  /\ outcome (parse_audit_command any_path short_token_blob audit_path false)
     = inl IndexError.
Proof.
  assert (H1 : In short_token_blob (normalized_lines short_token_blob))
    by (left; reflexivity).
  assert (H2 : 2 <= length (split tab short_token_blob))
    by (vm_compute; lia).
  assert (H3 : In (lit "a:b") (split tab short_token_blob))
    by (left; reflexivity).
  assert (H4 : length (split colon (lit "a:b")) = 2) by reflexivity.
  refine (conj H1 (conj H2 (conj H3 (conj H4 _)))).
  exact (proj1 (C7_two_part_token_raises_IndexError any_path
                  short_token_blob audit_path false short_token_blob
                  (lit "a:b") H1 H2 H3 H4)).
Defined.

Lemma C10_witness :
  split colon (lit "a:b:c:d:e") = [lit "a"; lit "b"; lit "c"; lit "d"; lit "e"]
  /\ nth_error (fragments long_token_blob) 0 = Some (lit "a:b:c:d:e")
  /\ nth_error
       [[(Namespace_Feature, lit "a"); (HashValue, lit "b");
         (FeatureValue, lit "c"); (WeightValue, lit "d")];
        [(Namespace_Feature, lit "c"); (HashValue, lit "d");
         (FeatureValue, lit "e"); (WeightValue, lit "f")]] 0
     = Some [(Namespace_Feature, lit "a"); (HashValue, lit "b");
             (FeatureValue, lit "c"); (WeightValue, lit "d")].
Proof.
  assert (H : split colon (lit "a:b:c:d:e")
              = [lit "a"; lit "b"; lit "c"; lit "d"; lit "e"])
    by reflexivity.
  split; [exact H|]. split; [reflexivity|].
  apply (proj2 (C10_extra_parts_discarded false (lit "a:b:c:d:e") H)
           long_token_blob 0).
  - reflexivity.
  - vm_compute. reflexivity.
Defined.

(** * Further properties of the parser *)


Lemma records_of_length (toks : list str) (rs : list FeatureRecord) :
  records_of toks = Some rs -> length rs = length toks.
Proof.
  intros H. apply records_of_Forall2 in H.
  induction H as [|tok r toks rs _ _ IH]; [reflexivity|].
  cbn [length]. rewrite IH. reflexivity.
Qed.

Lemma records_of_well_formed (toks : list str) :
  (exists rs, records_of toks = Some rs) <->
  forall tok, In tok toks -> 4 <= length (split colon tok).
Proof.
  split.
  - intros [rs Hrs] tok Hin.
    destruct (Nat.lt_ge_cases (length (split colon tok)) 4) as [Hlt|Hge];
      [|exact Hge].
    assert (Hnone : records_of toks = None)
      by (apply records_of_None; exists tok; split; assumption).
    congruence.
  - intros H. destruct (records_of toks) as [rs|] eqn:E; [exists rs; reflexivity|].
    apply records_of_None in E. destruct E as [tok [Hin Hlen]].
    apply H in Hin. lia.
Qed.

Lemma first_seen_length (rs : list FeatureRecord) :
  forall seen, length (first_seen_from seen rs) <= length rs.
Proof.
  induction rs as [|r rs IH]; intros seen; [reflexivity|].
  cbn [first_seen_from].
  destruct (mem label_eqb (key r) seen); cbn [length];
    specialize (IH (key r :: seen)); lia.
Qed.

Section ParserFacts.

Variable writable : str -> bool.

Local Abbreviation parse := (parse_audit_command writable).




(** X4: a returned table has the single column WeightValue; every row has
    a label of three strings and one string value, so no cell is NaN. *)
Theorem X4_table_shape (blob f : str) (v : bool) (df : DataFrame) :
  outcome (parse blob f v) = inr df ->
  columns df = [WeightValue]
  /\ length (labels (index df)) = length (data df)
  /\ forall row, In row (rows df) ->
       exists a b c d, row = ([Str a; Str b; Str c], [Str d]).
Proof.
  intros Hdf. apply parse_returns in Hdf. destruct Hdf as [rs [_ ->]].
  split; [reflexivity|]. split.
  - cbn [table_of index labels data]. rewrite !length_map. reflexivity.
  - intros row Hin. rewrite rows_table_of in Hin.
    apply in_map_iff in Hin. destruct Hin as [r [<- _]].
    exists (namespaceFeature r), (hashValue r), (featureValue r),
      (weightValue r).
    reflexivity.
Qed.

(** X5: a returned table is never empty, and it has at most as many rows
    as there are tokens on the lines with at least two tokens. *)
Theorem X5_row_count (blob f : str) (v : bool) (df : DataFrame) :
  outcome (parse blob f v) = inr df ->
  1 <= length (rows df) <= length (fragments blob).
Proof.
  rewrite parse_outcome.
  destruct (records_of (fragments blob)) as [[|r rs]|] eqn:E;
    try discriminate.
  destruct (writable f); [|discriminate].
  intros H. injection H as <-.
  rewrite rows_table_of, length_map.
  apply records_of_length in E. rewrite <- E.
  split; [cbn; lia | apply (first_seen_length (r :: rs) [])].
Qed.

Lemma row_source (blob f : str) (v : bool) (df : DataFrame)
  (row : label * list cell) :
  outcome (parse blob f v) = inr df ->
  In row (rows df) ->
  exists tok a b c d extra,
    find (fun t => label_eqb (token_key t) (fst row)) (fragments blob)
    = Some tok
    /\ split colon tok = a :: b :: c :: d :: extra
    /\ row = ([Str a; Str b; Str c], [Str d]).
Proof.
  intros Hdf Hin. apply parse_returns in Hdf. destruct Hdf as [rs [Hrs ->]].
  apply records_of_Forall2 in Hrs.
  rewrite rows_table_of in Hin. apply in_map_iff in Hin.
  destruct Hin as [r [<- Hin]]. cbn [row_of fst].
  assert (Hone : filter (fun r' => label_eqb (key r') (key r))
                   (first_seen_from [] rs) <> []).
  { intros Hnil.
    assert (H : In r (filter (fun r' => label_eqb (key r') (key r))
                        (first_seen_from [] rs)))
      by (apply filter_In; split; [exact Hin | apply label_eqb_refl]).
    rewrite Hnil in H. contradiction. }
  assert (Hr : find (fun r' => label_eqb (key r') (key r)) rs = Some r).
  { pose proof (first_seen_filter (key r) rs []) as Hf.
    cbn [mem existsb] in Hf.
    destruct (find (fun r' => label_eqb (key r') (key r)) rs) as [r0|];
      [|contradiction].
    assert (H : In r [r0]).
    { rewrite <- Hf. apply filter_In.
      split; [exact Hin | apply label_eqb_refl]. }
    destruct H as [->|[]]. reflexivity. }
  clear Hin Hone. revert Hr.
  induction Hrs as [|tok0 r0 toks rs Hr0 _ IH]; intros Hr; [discriminate|].
  cbn [find] in *. rewrite (record_of_key tok0 Hr0).
  destruct (label_eqb (key r0) (key r)).
  - injection Hr as ->. unfold record_of in Hr0.
    destruct (split colon tok0) as [|a [|b [|c [|d extra]]]] eqn:Hs;
      try discriminate.
    injection Hr0 as <-. exists tok0, a, b, c, d, extra.
    repeat split. exact Hs.
  - apply IH. exact Hr.
Qed.

(** X6: every row of a returned table is read from a token of the blob:
    the first token of the scan that has the key of the row, whose parts
    0 to 2 are the key and whose part 3 is the value. *)
Theorem X6_rows_come_from_tokens (blob f : str) (v : bool) (df : DataFrame)
  (row : label * list cell) :
  outcome (parse blob f v) = inr df ->
  In row (rows df) ->
  exists tok a b c d extra,
    find (fun t => label_eqb (token_key t) (fst row)) (fragments blob)
    = Some tok
    /\ split colon tok = a :: b :: c :: d :: extra
    /\ row = ([Str a; Str b; Str c], [Str d]).
Proof. apply row_source. Qed.

End ParserFacts.

(** ** What the string operations keep and remove *)

Lemma split_from_nonempty (sep : char) (s cur : str) :
  split_from sep cur s <> [].
Proof.
  intros H. apply (f_equal (@length str)) in H.
  rewrite length_split_from in H. discriminate H.
Qed.

Lemma join_cons (sep : char) (part : str) (parts : list str) :
  parts <> [] -> join sep (part :: parts) = part ++ sep :: join sep parts.
Proof. destruct parts; [contradiction | reflexivity]. Qed.

Lemma join_split_from (sep : char) (s : str) :
  forall cur, join sep (split_from sep cur s) = cur ++ s.
Proof.
  induction s as [|c s IH]; intros cur.
  - cbn. rewrite app_nil_r. reflexivity.
  - cbn [split_from]. destruct (c =? sep)%N eqn:E.
    + apply N.eqb_eq in E. subst c.
      rewrite join_cons by apply split_from_nonempty.
      rewrite IH. reflexivity.
    + rewrite IH, <- app_assoc. reflexivity.
Qed.

(** The parts hold no separator, and only characters of the input. *)
Lemma split_from_parts (sep : char) (s : str) :
  forall cur part c,
    In part (split_from sep cur s) -> In c part ->
    (In c cur \/ (In c s /\ c <> sep)).
Proof.
  induction s as [|c0 s IH]; intros cur part c Hpart Hc.
  - destruct Hpart as [<-|[]]. left. exact Hc.
  - cbn [split_from] in Hpart. destruct (c0 =? sep)%N eqn:E.
    + destruct Hpart as [<-|Hpart]; [left; exact Hc|].
      destruct (IH [] part c Hpart Hc) as [[]|[Hin Hne]].
      right. split; [right; exact Hin | exact Hne].
    + apply N.eqb_neq in E.
      destruct (IH (cur ++ [c0]) part c Hpart Hc) as [Hin|[Hin Hne]].
      * apply in_app_or in Hin. destruct Hin as [Hin|[<-|[]]].
        -- left. exact Hin.
        -- right. split; [left; reflexivity | exact E].
      * right. split; [right; exact Hin | exact Hne].
Qed.

Lemma split_parts (sep : char) (s part : str) (c : char) :
  In part (split sep s) -> In c part -> In c s /\ c <> sep.
Proof.
  intros Hpart Hc.
  destruct (split_from_parts sep s [] part c Hpart Hc) as [[]|H]. exact H.
Qed.

Lemma lstrip_chars (s : str) (c : char) : In c (lstrip s) -> In c s.
Proof.
  induction s as [|c0 s IH]; [intros []|].
  cbn [lstrip]. destruct (is_space c0); [|intros H; exact H].
  intros H. right. apply IH, H.
Qed.

Lemma strip_chars (s : str) (c : char) : In c (strip s) -> In c s.
Proof.
  unfold strip, rstrip. intros H.
  apply in_rev, lstrip_chars, in_rev, lstrip_chars in H. exact H.
Qed.

(** A line holds no line boundary. *)
Lemma splitlines_from_lines (n : nat) :
  forall s cur line c,
    length s <= n ->
    (forall c', In c' cur -> is_linebreak c' = false) ->
    In line (splitlines_from cur s) -> In c line ->
    is_linebreak c = false.
Proof.
  induction n as [|n IH]; intros s cur line c Hlen Hcur Hline Hc.
  - destruct s; [|cbn in Hlen; lia].
    cbn in Hline. destruct cur; [contradiction|].
    destruct Hline as [<-|[]]. apply Hcur, Hc.
  - destruct s as [|c0 s].
    + cbn in Hline. destruct cur; [contradiction|].
      destruct Hline as [<-|[]]. apply Hcur, Hc.
    + cbn [length] in Hlen. cbn [splitlines_from] in Hline.
      destruct (is_linebreak c0) eqn:E.
      * destruct Hline as [<-|Hline]; [apply Hcur, Hc|].
        destruct s as [|c1 s].
        -- cbn in Hline. contradiction.
        -- cbn [length] in Hlen.
           destruct ((c0 =? 13)%N && (c1 =? 10)%N).
           ++ apply (IH s [] line c); [lia | intros ? [] | exact Hline
                                        | exact Hc].
           ++ apply (IH (c1 :: s) [] line c);
                [cbn [length]; lia | intros ? [] | exact Hline | exact Hc].
      * apply (IH s (cur ++ [c0]) line c); [lia | | exact Hline | exact Hc].
        intros c' Hin. apply in_app_or in Hin.
        destruct Hin as [Hin|[<-|[]]]; [apply Hcur, Hin | exact E].
Qed.

Lemma splitlines_lines (s line : str) (c : char) :
  In line (splitlines s) -> In c line -> is_linebreak c = false.
Proof.
  apply (splitlines_from_lines (n := length s)); [reflexivity | intros ? []].
Qed.

(** Two separators in a row give an empty part. *)
Lemma split_from_empty_part (sep : char) (x y : str) :
  forall cur, In [] (split_from sep cur (x ++ sep :: sep :: y)).
Proof.
  induction x as [|c x IH]; intros cur.
  - cbn [app split_from]. rewrite N.eqb_refl. right. left. reflexivity.
  - cbn [app split_from]. destruct (c =? sep)%N; [right|]; apply IH.
Qed.

Lemma length_split_two (sep : char) (x y : str) :
  2 <= length (split sep (x ++ sep :: y)).
Proof.
  unfold split. rewrite length_split_from, filter_app, length_app.
  cbn [filter]. rewrite N.eqb_refl. cbn [length]. lia.
Qed.

Section ParserTokens.

Variable writable : str -> bool.

Local Abbreviation parse := (parse_audit_command writable).

(** X7: no cell of a returned table holds a tab, a colon or a line
    boundary, so the fields cannot break the lines or the columns of the
    tab-separated file. *)
Theorem X7_cells_have_no_separator (blob f : str) (v : bool)
  (df : DataFrame) (row : label * list cell) (x : cell) (c : char) :
  outcome (parse blob f v) = inr df ->
  In row (rows df) ->
  In x (fst row ++ snd row) ->
  In c (cell_chars x) ->
  c <> tab /\ c <> colon /\ is_linebreak c = false.
Proof.
  intros Hdf Hrow Hx Hc.
  destruct (@row_source writable blob f v df row Hdf Hrow)
    as [tok [a [b [c3 [d [extra [Hfind [Hsplit ->]]]]]]]].
  apply find_some in Hfind. destruct Hfind as [Htok _].
  apply In_fragments in Htok. destruct Htok as [line [Hline [_ Htok]]].
  unfold normalized_lines in Hline. apply in_map_iff in Hline.
  destruct Hline as [raw [<- Hraw]].
  assert (Hpart : exists part, In part (split colon tok) /\ In c part).
  { rewrite Hsplit. cbn [fst snd app] in Hx.
    destruct Hx as [<-|[<-|[<-|[<-|[]]]]]; cbn [cell_chars] in Hc;
      eexists; (split; [|exact Hc]); cbn; auto. }
  destruct Hpart as [part [Hpart Hcp]].
  destruct (split_parts colon tok part c Hpart Hcp) as [Hctok Hcolon].
  destruct (split_parts tab (strip raw) tok c Htok Hctok) as [Hcline Htab].
  apply strip_chars in Hcline.
  repeat split; [exact Htab | exact Hcolon|].
  apply (splitlines_lines blob raw c Hraw Hcline).
Qed.

(** X11: two tabs in a row inside a trimmed line give an empty token, and
    the parser raises IndexError. *)
Theorem X11_adjacent_tabs_raise_IndexError (blob f : str) (v : bool)
  (x y : str) :
  In (x ++ tab :: tab :: y) (normalized_lines blob) ->
  outcome (parse blob f v) = inl IndexError.
Proof.
  intros Hline. apply parse_IndexError_iff.
  exists (x ++ tab :: tab :: y), [].
  split; [exact Hline|]. split; [apply length_split_two|].
  split; [apply split_from_empty_part | cbn; lia].
Qed.

End ParserTokens.

(** X12: splitting loses nothing: the parts joined by the separator are
    the string again; so a token with exactly four parts is its four
    fields joined by colons, and the dict built from it holds them. *)
Theorem X12_split_join_round_trip :
  (forall sep s, join sep (split sep s) = s)
  /\ (forall v tok acc,
        length (split colon tok) = 4 ->
        exists t0 t1 t2 t3,
          outcome (for_coeff v [tok] acc)
          = inr (acc ++ [[(Namespace_Feature, t0); (HashValue, t1);
                          (FeatureValue, t2); (WeightValue, t3)]])
          /\ t0 ++ colon :: t1 ++ colon :: t2 ++ colon :: t3 = tok).
Proof.
  split.
  - intros sep s. apply (join_split_from sep s []).
  - intros v tok acc Hlen.
    pose proof (join_split_from colon tok []) as Hjoin.
    fold (split colon tok) in Hjoin.
    rewrite for_coeff_step. unfold record_of.
    destruct (split colon tok) as [|a [|b [|c [|d [|e extra]]]]];
      try discriminate Hlen.
    exists a, b, c, d. split; [reflexivity | exact Hjoin].
Qed.

(** ** Blobs joined by a newline *)

(** The lines of [a], a newline and [b]: those of [a], at most one empty
    line, and those of [b]. *)
Lemma splitlines_from_LF (cur b : str) :
  splitlines_from cur (10%N :: b) = cur :: splitlines_from [] b.
Proof. destruct b; reflexivity. Qed.

Lemma splitlines_from_newline (b : str) (n : nat) :
  forall a cur,
    length a <= n ->
    exists pad,
      (pad = [] \/ pad = [[]])
      /\ splitlines_from cur (a ++ 10%N :: b)
         = splitlines_from cur a ++ pad ++ splitlines_from [] b.
Proof.
  assert (Hnil : forall cur,
             exists pad,
               (pad = [] \/ pad = [[]])
               /\ splitlines_from cur ([] ++ 10%N :: b)
                  = splitlines_from cur [] ++ pad ++ splitlines_from [] b).
  { intros cur. cbn [app]. rewrite splitlines_from_LF.
    destruct cur as [|c0 cur].
    - exists [[]]. split; [right; reflexivity | reflexivity].
    - exists []. split; [left; reflexivity | reflexivity]. }
  induction n as [|n IH]; intros a cur Hlen.
  - destruct a; [apply Hnil | cbn in Hlen; lia].
  - destruct a as [|c a]; [apply Hnil|].
    cbn [length] in Hlen. cbn [app splitlines_from].
    destruct (is_linebreak c) eqn:E.
    + destruct a as [|c' a].
      * cbn [app]. destruct (c =? 13)%N eqn:Ecr.
        -- exists []. split; [left; reflexivity|]. reflexivity.
        -- exists [[]]. split; [right; reflexivity|].
           cbn [andb]. rewrite splitlines_from_LF. reflexivity.
      * cbn [length] in Hlen. cbn [app].
        destruct ((c =? 13)%N && (c' =? 10)%N).
        -- destruct (IH a [] ltac:(lia)) as [pad [Hpad Heq]].
           exists pad. split; [exact Hpad|]. rewrite Heq. reflexivity.
        -- destruct (IH (c' :: a) [] ltac:(cbn [length]; lia))
             as [pad [Hpad Heq]].
           exists pad. split; [exact Hpad|].
           cbn [app] in Heq. rewrite Heq. reflexivity.
    + apply (IH a (cur ++ [c])). lia.
Qed.

Lemma fragments_of_app (l1 l2 : list str) :
  fragments_of (l1 ++ l2) = fragments_of l1 ++ fragments_of l2.
Proof. unfold fragments_of. apply flat_map_app. Qed.

Lemma fragments_newline (a b : str) :
  fragments (a ++ 10%N :: b) = fragments a ++ fragments b.
Proof.
  unfold fragments, normalized_lines, splitlines.
  destruct (@splitlines_from_newline b (length a) a [] (le_n _))
    as [pad [Hpad Heq]].
  transitivity (fragments_of (map strip (splitlines_from [] a ++ pad
                                           ++ splitlines_from [] b))).
  { f_equal. f_equal. exact Heq. }
  rewrite !map_app, !fragments_of_app.
  destruct Hpad as [-> | ->]; reflexivity.
Qed.

Lemma first_seen_app (ra rb : list FeatureRecord) :
  forall seen,
    first_seen_from seen (ra ++ rb)
    = first_seen_from seen ra
        ++ first_seen_from (rev (map key ra) ++ seen) rb.
Proof.
  induction ra as [|r ra IH]; intros seen; [reflexivity|].
  cbn [app first_seen_from map rev]. rewrite <- app_assoc. cbn [app].
  destruct (mem label_eqb (key r) seen); rewrite IH; reflexivity.
Qed.

Section ParserLines.

Variable writable : str -> bool.

Local Abbreviation parse := (parse_audit_command writable).

(** X8: the lines are read one by one: the tokens scanned in [a], a
    newline and [b] are those of [a] followed by those of [b], and the
    whole raises IndexError exactly when one of the two does. *)
Theorem X8_blobs_compose (a b f : str) (v : bool) :
  fragments (a ++ 10%N :: b) = fragments a ++ fragments b
  /\ (outcome (parse (a ++ 10%N :: b) f v) = inl IndexError <->
      outcome (parse a f v) = inl IndexError
      \/ outcome (parse b f v) = inl IndexError).
Proof.
  split; [apply fragments_newline|].
  assert (Hidx : forall blob,
             outcome (parse blob f v) = inl IndexError <->
             records_of (fragments blob) = None).
  { intros blob. rewrite parse_outcome.
    destruct (records_of (fragments blob)) as [[|r rs]|].
    - split; discriminate.
    - destruct (writable f); split; discriminate.
    - split; reflexivity. }
  rewrite !Hidx, fragments_newline, records_of_app.
  destruct (records_of (fragments a)), (records_of (fragments b));
    split; try discriminate; auto; intros [H|H]; discriminate H.
Qed.

(** X9: lines without coefficients do not count: when no trimmed line of
    [a] has two tab-separated tokens, putting [a] and a newline before a
    blob, or a newline and [a] after it, changes neither the table nor
    the exception. *)
Theorem X9_plain_lines_ignored (a b f : str) (v : bool) :
  (forall line, In line (normalized_lines a) ->
                length (split tab line) <= 1) ->
  outcome (parse (a ++ 10%N :: b) f v) = outcome (parse b f v)
  /\ outcome (parse (b ++ 10%N :: a) f v) = outcome (parse b f v).
Proof.
  intros H. apply fragments_nil in H.
  rewrite !parse_outcome, !fragments_newline, H, app_nil_r.
  split; reflexivity.
Qed.

(** X10: more output only adds rows: when the parser returns a table for
    [a] and one for [a], a newline and [b], the rows of the first are the
    first rows of the second, in the same order and with the same
    values. *)
Theorem X10_rows_are_a_prefix (a b f : str) (v : bool)
  (df_a df : DataFrame) :
  outcome (parse a f v) = inr df_a ->
  outcome (parse (a ++ 10%N :: b) f v) = inr df ->
  exists more, rows df = rows df_a ++ more.
Proof.
  intros Ha Hab.
  apply parse_returns in Ha. destruct Ha as [ra [Hra ->]].
  apply parse_returns in Hab. destruct Hab as [rab [Hrab ->]].
  rewrite fragments_newline, records_of_app, Hra in Hrab.
  destruct (records_of (fragments b)) as [rb|]; [|discriminate].
  injection Hrab as <-.
  rewrite !rows_table_of, first_seen_app, map_app.
  eexists. reflexivity.
Qed.

End ParserLines.

(** * Further properties of the pipeline and of the script *)

Section PipelineFacts.

Variable check_output : str -> exn + list byte.
Variable decode : list byte -> exn + str.
Variable writable : str -> bool.

Local Abbreviation run := (run_vw_audit_command check_output decode).
Local Abbreviation parse := (parse_audit_command writable).
Local Abbreviation pprint := (pprint_vw_audit check_output decode writable).

Lemma pprint_outcome (model log f : str) (pred : option str)
  (verbose : bool) (base : str) :
  outcome (pprint model log f pred verbose base) =
  match outcome (run model log pred verbose base) with
  | inl e => inl e
  | inr out =>
      match outcome (parse out f false) with
      | inl e => inl e
      | inr _ => inr tt
      end
  end.
Proof.
  unfold pprint_vw_audit. rewrite outcome_bind.
  destruct (outcome (run model log pred verbose base)); [reflexivity|].
  rewrite outcome_bind. destruct (outcome (parse s f false)); reflexivity.
Qed.

Lemma pprint_trace (model log f : str) (pred : option str)
  (verbose : bool) (base : str) :
  trace (pprint model log f pred verbose base) =
  trace (run model log pred verbose base) ++
  match outcome (run model log pred verbose base) with
  | inl _ => []
  | inr out =>
      match outcome (parse out f false) with
      | inl _ => []
      | inr df => [write_tsv f df]
      end
  end.
Proof.
  unfold pprint_vw_audit. rewrite trace_bind.
  destruct (outcome (run model log pred verbose base)) as [e|out];
    [rewrite app_nil_r; reflexivity|].
  f_equal. rewrite trace_bind, parse_trace, for_line_silent.
  destruct (outcome (parse out f false)); [reflexivity|].
  cbn [app trace ret fst]. reflexivity.
Qed.

Lemma run_trace_no_write (model log : str) (pred : option str)
  (verbose : bool) (base : str) :
  filter is_write_tsv (trace (run model log pred verbose base)) = [].
Proof.
  rewrite run_trace.
  destruct verbose; cbn [app filter is_write_tsv];
    destruct (outcome _); reflexivity.
Qed.

(** X13: when the command fails or its output cannot be decoded, the
    pipeline raises that exception, stops after the runner's events and
    writes no file. *)
Theorem X13_command_failure_propagates (model log f : str)
  (pred : option str) (verbose : bool) (base : str) (e : exn) :
  outcome (run model log pred verbose base) = inl e ->
  outcome (pprint model log f pred verbose base) = inl e
  /\ trace (pprint model log f pred verbose base)
     = trace (run model log pred verbose base)
  /\ filter is_write_tsv (trace (pprint model log f pred verbose base)) = [].
Proof.
  intros H. rewrite pprint_outcome, pprint_trace, H, app_nil_r.
  split; [reflexivity|]. split; [reflexivity|]. apply run_trace_no_write.
Qed.

(** X14: when the pipeline returns, it has run exactly one command and
    then written exactly one file: the given path, with the table parsed
    from the decoded output of that command. *)
Theorem X14_success_runs_then_writes (model log f : str)
  (pred : option str) (verbose : bool) (base : str) :
  outcome (pprint model log f pred verbose base) = inr tt ->
  exists cmd captured out df,
    check_output cmd = inr captured
    /\ decode captured = inr out
    /\ outcome (parse out f false) = inr df
    /\ filter (fun e => is_run_process e || is_write_tsv e)
         (trace (pprint model log f pred verbose base))
       = [run_process cmd; write_tsv f df].
Proof.
  rewrite pprint_outcome, pprint_trace.
  pose proof (run_outcome check_output decode model log pred verbose base)
    as Hout.
  pose proof (run_trace check_output decode model log pred verbose base)
    as Htr.
  cbv zeta in Htr.
  set (cmd := _ ++ lit " -i " ++ model ++ lit " --dsjson " ++ log
                ++ lit " --audit") in *.
  destruct (outcome (run model log pred verbose base)) as [e|out] eqn:Hrun;
    [discriminate|].
  destruct (outcome (parse out f false)) as [e|df] eqn:Hparse;
    [discriminate|].
  intros _.
  destruct (check_output cmd) as [e|captured] eqn:Hc; [discriminate Hout|].
  exists cmd, captured, out, df.
  split; [exact Hc|]. split; [symmetry; exact Hout|].
  split; [exact Hparse|].
  rewrite Htr. destruct verbose; reflexivity.
Qed.

(** X15: the verbose flag of the pipeline changes nothing but what is
    printed: the exception or return, the command run and the file
    written are the same. *)
Theorem X15_pipeline_verbose_only_prints (model log f : str)
  (pred : option str) (base : str) :
  outcome (pprint model log f pred true base)
  = outcome (pprint model log f pred false base)
  /\ filter (fun e => negb (is_print e))
       (trace (pprint model log f pred true base))
     = trace (pprint model log f pred false base).
Proof.
  assert (Hrun : outcome (run model log pred true base)
                 = outcome (run model log pred false base))
    by (rewrite !run_outcome; reflexivity).
  split.
  - rewrite !pprint_outcome, Hrun. reflexivity.
  - rewrite !pprint_trace, !run_trace, Hrun.
    destruct (outcome (run model log pred false base)) as [e|out];
      [reflexivity|].
    destruct (outcome (parse out f false)); reflexivity.
Qed.

(** X16: the script prints its closing message only when the pipeline has
    returned, and then as its last event, right after the write of the
    file that the message names; when the pipeline raises, the script
    raises the same exception and prints no closing message. *)
Theorem X16_closing_message_follows_write (args : Main.Namespace) :
  (snd (main check_output decode writable args) = inr tt ->
   exists events df,
     fst (main check_output decode writable args)
     = Main.print_args args :: events
         ++ [Main.pipeline (write_tsv (Main.output args) df);
             Main.print_see_file (Main.output args)])
  /\ (forall e,
        snd (main check_output decode writable args) = inl e ->
        forall file,
          ~ In (Main.print_see_file file)
              (fst (main check_output decode writable args))).
Proof.
  unfold main. cbn [fst snd]. split.
  - intros H. rewrite H. rewrite pprint_outcome in H. rewrite pprint_trace.
    destruct (outcome (run _ _ _ _ _)) as [e|out]; [discriminate|].
    destruct (outcome (parse out _ false)) as [e|df]; [discriminate|].
    eexists. exists df. rewrite map_app, <- app_assoc. reflexivity.
  - intros e H file Hin. rewrite H, app_nil_r in Hin.
    destruct Hin as [Hin|Hin]; [discriminate Hin|].
    apply in_map_iff in Hin. destruct Hin as [ev [Hev _]]. discriminate Hev.
Qed.

End PipelineFacts.

(** ** The diagnostics of the verbose parser *)

Lemma for_coeff_no_print_line (v : bool) (toks : list str) :
  forall acc, filter is_print_line (trace (for_coeff v toks acc)) = [].
Proof.
  induction toks as [|tok toks IH]; intros acc; [reflexivity|].
  cbn [for_coeff].
  rewrite trace_bind, outcome_when, trace_when, filter_app.
  replace (filter is_print_line
             (if v then [print_coefficients (split colon tok)] else []))
    with (@nil event) by (destruct v; reflexivity).
  cbn [app].
  repeat (rewrite trace_bind, outcome_getitem, trace_getitem;
          match goal with
          | |- context [nth_error ?l ?i] => destruct (nth_error l i)
          end; [cbn [app]|reflexivity]).
  apply IH.
Qed.

Lemma for_line_print_lines (lines : list str) :
  forall n acc,
    records_of (fragments_of lines) <> None ->
    filter is_print_line (trace (for_line true lines n acc))
    = map (fun p => print_line (fst p) (snd p))
        (combine (seq (S n) (length lines)) lines).
Proof.
  induction lines as [|line lines IH]; intros n acc Hwf; [reflexivity|].
  cbn [for_line length seq combine map fst snd].
  rewrite trace_bind, outcome_when, trace_when. cbn [app filter is_print_line].
  f_equal.
  rewrite trace_bind, outcome_when, trace_when. cbn [app filter is_print_line].
  cbn [fragments_of flat_map] in Hwf. fold (fragments_of lines) in Hwf.
  destruct (length (split tab line) <=? 1).
  - apply IH. exact Hwf.
  - rewrite records_of_app in Hwf.
    rewrite trace_bind, for_coeff_outcome.
    destruct (records_of (split tab line)) as [r1|]; [|contradiction].
    rewrite filter_app, for_coeff_no_print_line. cbn [app].
    apply IH. destruct (records_of (fragments_of lines)); congruence.
Qed.

(** X17: in verbose mode, when every token of the lines with at least two
    tokens has four parts or more, the parser echoes each trimmed line
    once, in the order of the blob, numbered from 1. *)
Theorem X17_verbose_numbers_lines (writable : str -> bool) (blob f : str) :
  (forall tok, In tok (fragments blob) -> 4 <= length (split colon tok)) ->
  filter is_print_line (trace (parse_audit_command writable blob f true))
  = map (fun p => print_line (fst p) (snd p))
      (combine (seq 1 (length (normalized_lines blob)))
         (normalized_lines blob)).
Proof.
  intros Hwf. apply records_of_well_formed in Hwf. destruct Hwf as [rs Hrs].
  rewrite parse_trace, filter_app.
  rewrite for_line_print_lines
    by (fold (fragments blob); rewrite Hrs; discriminate).
  destruct (outcome _); cbn [filter is_print_line]; apply app_nil_r.
Qed.

(** ** The further properties on the sample inputs *)

Lemma duplicate_blob_outcome :
  outcome (parse_audit_command any_path duplicate_blob audit_path false)
  = inr duplicate_table.
Proof. vm_compute. reflexivity. Qed.



Lemma X4_witness :
  outcome (parse_audit_command any_path duplicate_blob audit_path false)
  = inr duplicate_table
  /\ columns duplicate_table = [WeightValue].
Proof.
  split; [exact duplicate_blob_outcome|].
  exact (proj1 (X4_table_shape any_path duplicate_blob audit_path false
                  duplicate_blob_outcome)).
Defined.

Lemma X5_witness :
  outcome (parse_audit_command any_path duplicate_blob audit_path false)
  = inr duplicate_table
  /\ 1 <= length (rows duplicate_table) <= length (fragments duplicate_blob).
Proof.
  split; [exact duplicate_blob_outcome|].
  exact (X5_row_count any_path duplicate_blob audit_path false
           duplicate_blob_outcome).
Defined.

Lemma X6_witness :
  outcome (parse_audit_command any_path duplicate_blob audit_path false)
  = inr duplicate_table
  /\ In ([Str (lit "a"); Str (lit "1"); Str (lit "1")], [Str (lit "0.1")])
       (rows duplicate_table)
  /\ exists tok a b c d extra,
       find (fun t => label_eqb (token_key t)
                        [Str (lit "a"); Str (lit "1"); Str (lit "1")])
         (fragments duplicate_blob) = Some tok
       /\ split colon tok = a :: b :: c :: d :: extra
       /\ ([Str (lit "a"); Str (lit "1"); Str (lit "1")], [Str (lit "0.1")])
          = ([Str a; Str b; Str c], [Str d]).
Proof.
  assert (Hin : In ([Str (lit "a"); Str (lit "1"); Str (lit "1")],
                    [Str (lit "0.1")]) (rows duplicate_table))
    by (left; reflexivity).
  split; [exact duplicate_blob_outcome|]. split; [exact Hin|].
  exact (@X6_rows_come_from_tokens any_path duplicate_blob audit_path false
           duplicate_table _ duplicate_blob_outcome Hin).
Defined.

Lemma X7_witness :
  outcome (parse_audit_command any_path duplicate_blob audit_path false)
  = inr duplicate_table
  /\ In ([Str (lit "a"); Str (lit "1"); Str (lit "1")], [Str (lit "0.1")])
       (rows duplicate_table)
  /\ In (Str (lit "0.1"))
       ([Str (lit "a"); Str (lit "1"); Str (lit "1")] ++ [Str (lit "0.1")])
  /\ In 46%N (cell_chars (Str (lit "0.1")))
  /\ (46%N <> tab /\ 46%N <> colon /\ is_linebreak 46%N = false).
Proof.
  assert (Hrow : In ([Str (lit "a"); Str (lit "1"); Str (lit "1")],
                     [Str (lit "0.1")]) (rows duplicate_table))
    by (left; reflexivity).
  assert (Hx : In (Str (lit "0.1"))
                 (fst ([Str (lit "a"); Str (lit "1"); Str (lit "1")],
                       [Str (lit "0.1")])
                  ++ snd ([Str (lit "a"); Str (lit "1"); Str (lit "1")],
                          [Str (lit "0.1")])))
    by (cbn; auto).
  assert (Hc : In 46%N (cell_chars (Str (lit "0.1"))))
    by (right; left; reflexivity).
  refine (conj duplicate_blob_outcome (conj Hrow (conj Hx (conj Hc _)))).
  exact (@X7_cells_have_no_separator any_path duplicate_blob audit_path false
           duplicate_table _ _ _ duplicate_blob_outcome Hrow Hx Hc).
Defined.

Lemma X9_witness :
  (forall line, In line (normalized_lines header_blob) ->
                length (split tab line) <= 1)
  /\ outcome (parse_audit_command any_path
                (header_blob ++ 10%N :: duplicate_blob) audit_path false)
     = outcome (parse_audit_command any_path duplicate_blob audit_path false).
Proof.
  assert (H : forall line, In line (normalized_lines header_blob) ->
                           length (split tab line) <= 1).
  { intros line [<-|[]]. vm_compute. lia. }
  split; [exact H|].
  exact (proj1 (X9_plain_lines_ignored any_path header_blob duplicate_blob
                  audit_path false H)).
Defined.

Lemma X10_witness :
  outcome (parse_audit_command any_path duplicate_blob audit_path false)
  = inr duplicate_table
  /\ outcome (parse_audit_command any_path
                (duplicate_blob ++ 10%N :: two_line_blob) audit_path false)
     = inr (table_of
         [mkFeatureRecord (lit "a") (lit "1") (lit "1") (lit "0.1");
          mkFeatureRecord (lit "b") (lit "2") (lit "2") (lit "0.5");
          mkFeatureRecord (lit "c") (lit "3") (lit "3") (lit "1")])
  /\ exists more,
       rows (table_of
         [mkFeatureRecord (lit "a") (lit "1") (lit "1") (lit "0.1");
          mkFeatureRecord (lit "b") (lit "2") (lit "2") (lit "0.5");
          mkFeatureRecord (lit "c") (lit "3") (lit "3") (lit "1")])
       = rows duplicate_table ++ more.
Proof.
  assert (H : outcome (parse_audit_command any_path
                         (duplicate_blob ++ 10%N :: two_line_blob)
                         audit_path false)
              = inr (table_of
                  [mkFeatureRecord (lit "a") (lit "1") (lit "1") (lit "0.1");
                   mkFeatureRecord (lit "b") (lit "2") (lit "2") (lit "0.5");
                   mkFeatureRecord (lit "c") (lit "3") (lit "3") (lit "1")]))
    by (vm_compute; reflexivity).
  split; [exact duplicate_blob_outcome|]. split; [exact H|].
  exact (X10_rows_are_a_prefix any_path duplicate_blob two_line_blob
           audit_path false duplicate_blob_outcome H).
Defined.

Lemma X11_witness :
  In (lit "a:1:1:1" ++ tab :: tab :: lit "b:1:1:1")
    (normalized_lines double_tab_blob)
  /\ outcome (parse_audit_command any_path double_tab_blob audit_path false)
     = inl IndexError.
Proof.
  assert (H : In (lit "a:1:1:1" ++ tab :: tab :: lit "b:1:1:1")
                (normalized_lines double_tab_blob))
    by (left; reflexivity).
  split; [exact H|].
  exact (X11_adjacent_tabs_raise_IndexError any_path double_tab_blob
           audit_path false (lit "a:1:1:1") (lit "b:1:1:1") H).
Defined.

Lemma X12_witness :
  length (split colon (lit "a:1:1:0.1")) = 4
  /\ exists t0 t1 t2 t3,
       outcome (for_coeff false [lit "a:1:1:0.1"] [])
       = inr ([] ++ [[(Namespace_Feature, t0); (HashValue, t1);
                      (FeatureValue, t2); (WeightValue, t3)]])
       /\ t0 ++ colon :: t1 ++ colon :: t2 ++ colon :: t3 = lit "a:1:1:0.1".
Proof.
  assert (H : length (split colon (lit "a:1:1:0.1")) = 4) by reflexivity.
  split; [exact H|].
  exact (proj2 X12_split_join_round_trip false (lit "a:1:1:0.1") [] H).
Defined.

Lemma X13_witness :
  outcome (run_vw_audit_command failing_check_output ascii_decode
             (lit "m.vw") (lit "log.json") None false (lit "vw -t -l 0.001"))
  = inl (CalledProcessError 1)
  /\ outcome (pprint_vw_audit failing_check_output ascii_decode any_path
                (lit "m.vw") (lit "log.json") audit_path None false
                (lit "vw -t -l 0.001"))
     = inl (CalledProcessError 1).
Proof.
  assert (H : outcome (run_vw_audit_command failing_check_output ascii_decode
                         (lit "m.vw") (lit "log.json") None false
                         (lit "vw -t -l 0.001"))
              = inl (CalledProcessError 1))
    by reflexivity.
  split; [exact H|].
  exact (proj1 (X13_command_failure_propagates failing_check_output
                  ascii_decode any_path (lit "m.vw") (lit "log.json")
                  audit_path None false (lit "vw -t -l 0.001") H)).
Defined.

Lemma X14_witness :
  outcome (pprint_vw_audit good_check_output ascii_decode any_path
             (lit "m.vw") (lit "log.json") audit_path None false
             (lit "vw -t -l 0.001")) = inr tt
  /\ exists cmd captured out df,
       good_check_output cmd = inr captured
       /\ ascii_decode captured = inr out
       /\ outcome (parse_audit_command any_path out audit_path false) = inr df
       /\ filter (fun e => is_run_process e || is_write_tsv e)
            (trace (pprint_vw_audit good_check_output ascii_decode any_path
                      (lit "m.vw") (lit "log.json") audit_path None false
                      (lit "vw -t -l 0.001")))
          = [run_process cmd; write_tsv audit_path df].
Proof.
  assert (H : outcome (pprint_vw_audit good_check_output ascii_decode
                         any_path (lit "m.vw") (lit "log.json") audit_path
                         None false (lit "vw -t -l 0.001")) = inr tt)
    by (vm_compute; reflexivity).
  split; [exact H|].
  exact (X14_success_runs_then_writes good_check_output ascii_decode any_path
           (lit "m.vw") (lit "log.json") audit_path None false
           (lit "vw -t -l 0.001") H).
Defined.

Lemma X16_witness :
  snd (main good_check_output ascii_decode any_path sample_args) = inr tt
  /\ exists events df,
       fst (main good_check_output ascii_decode any_path sample_args)
       = Main.print_args sample_args :: events
           ++ [Main.pipeline (write_tsv (Main.output sample_args) df);
               Main.print_see_file (Main.output sample_args)].
Proof.
  assert (H : snd (main good_check_output ascii_decode any_path sample_args)
              = inr tt)
    by (vm_compute; reflexivity).
  split; [exact H|].
  exact (proj1 (X16_closing_message_follows_write good_check_output
                  ascii_decode any_path sample_args) H).
Defined.

Lemma X17_witness :
  (forall tok, In tok (fragments duplicate_blob) ->
               4 <= length (split colon tok))
  /\ filter is_print_line
       (trace (parse_audit_command any_path duplicate_blob audit_path true))
     = [print_line 1 duplicate_blob].
Proof.
  assert (H : forall tok, In tok (fragments duplicate_blob) ->
                          4 <= length (split colon tok)).
  { intros tok [<-|[<-|[]]]; vm_compute; lia. }
  split; [exact H|].
  exact (X17_verbose_numbers_lines any_path duplicate_blob audit_path H).
Defined.
